(** * Smart Factory dashboard: relay client, buffers, sensor limits and ACL

    A shallow embedding of the JavaScript sources of the dashboard
    (the WebSocket service, the Pinia store, the Dashboard and
    SSManagement views) together with the properties stated about them.

    Conventions of the embedding:
    - JavaScript values are the inductive type [JsVal]; an object is an
      ordered list of own properties.
    - A JavaScript computation on a state [S] is a function
      [S -> Completion A * S]: it either completes normally with a value
      or throws, and in both cases leaves a state behind.
    - [console.log], [console.warn] and [console.error] append a structured
      entry to the console of the state, so that the console is the trace
      of what the code did. *)

From Stdlib Require Import QArith Ascii.
From stdpp Require Import gmap strings list fin_maps.

Local Open Scope string_scope.
Local Open Scope list_scope.

(* ===================================================================== *)
(** ** JavaScript values and completions *)
(* ===================================================================== *)

Module Js.

#[warnings="-register-all"]
Inductive JsVal : Type :=
| VUndefined
| VNull
| VBool (b : bool)
| VNum (q : Q)
| VBigInt (z : Z)
| VStr (s : string)
| VArr (xs : list JsVal)
| VObj (fields : list (string * JsVal)).

(** An object literal, as its list of own properties in insertion order. *)
Definition JsObj := list (string * JsVal).

(** ToBoolean. *)
Definition truthy (v : JsVal) : bool :=
  match v with
  | VUndefined | VNull => false
  | VBool b => b
  | VNum q => negb (Qeq_bool q 0)
  | VBigInt z => negb (Z.eqb z 0)
  | VStr s => negb (String.eqb s "")
  | VArr _ | VObj _ => true
  end.

Fixpoint assoc_get (k : string) (o : JsObj) : JsVal :=
  match o with
  | [] => VUndefined
  | (k', v) :: o' => if String.eqb k k' then v else assoc_get k o'
  end.

(** [o.k] on an object; a missing property reads as [undefined]. *)
Definition get (k : string) (v : JsVal) : JsVal :=
  match v with
  | VObj o => assoc_get k o
  | _ => VUndefined
  end.

Definition digit_of (c : ascii) : option N :=
  let n := N_of_ascii c in
  if (48 <=? n)%N && (n <=? 57)%N then Some (n - 48)%N else None.

Fixpoint decimal (s : string) (acc : N) : option N :=
  match s with
  | EmptyString => Some acc
  | String c s' =>
      match digit_of c with
      | Some d => decimal s' (acc * 10 + d)%N
      | None => None
      end
  end.

(** The array index a property key stands for, if any: a decimal numeral
    without a leading zero, below [2^32 - 1]. *)
Definition array_index (k : string) : option N :=
  match k with
  | EmptyString => None
  | String "0"%char (String _ _) => None
  | _ =>
      match decimal k 0 with
      | Some n => if (n <? 4294967295)%N then Some n else None
      | None => None
      end
  end.

(** The order of own properties: array indices first, ascending, then the
    other keys in the order of their creation. [key_precedes k k'] tells
    whether a new key [k] goes in front of an existing key [k']. *)
Definition key_precedes (k k' : string) : bool :=
  match array_index k, array_index k' with
  | Some n, Some n' => (n <? n')%N
  | Some _, None => true
  | None, _ => false
  end.

Definition has_key (k : string) (o : JsObj) : bool :=
  existsb (fun kv => String.eqb k (fst kv)) o.

(** Defining [k] on an object: an existing key keeps its position, a new
    key takes its place in the order of own properties. *)
Fixpoint obj_set (k : string) (v : JsVal) (o : JsObj) : JsObj :=
  match o with
  | [] => [(k, v)]
  | (k', v') :: o' =>
      if String.eqb k k' then (k, v) :: o'
      else if key_precedes k k' && negb (has_key k o')
      then (k, v) :: (k', v') :: o'
      else (k', v') :: obj_set k v o'
  end.

(** [{...base, ...src}]: the own properties of [src] defined in order. *)
Definition spread (src base : JsObj) : JsObj :=
  fold_left (fun acc kv => obj_set (fst kv) (snd kv) acc) src base.

(** Whether [String(v)], and so [`${v}`], throws a TypeError. Turning an
    object into a primitive calls its [toString]; an own [toString]
    property hides the inherited method, and no value here is a function,
    so the conversion fails. An array is joined, which converts each
    element other than [null] and [undefined]. *)
Fixpoint to_string_throws (v : JsVal) : bool :=
  match v with
  | VObj fs => existsb (fun kv => String.eqb (fst kv) "toString") fs
  | VArr xs => existsb to_string_throws xs
  | _ => false
  end.

(** [v === null || v === undefined]. *)
Definition nullish (v : JsVal) : bool :=
  match v with
  | VUndefined | VNull => true
  | _ => false
  end.

(** [a || b]. *)
Definition or_else (a b : JsVal) : JsVal := if truthy a then a else b.

(** [JSON.stringify] throws a TypeError on a BigInt anywhere in the
    value; values are trees here, so that is its only failure. *)
Fixpoint has_bigint (v : JsVal) : bool :=
  match v with
  | VBigInt _ => true
  | VArr xs => existsb has_bigint xs
  | VObj fs => existsb (fun kv => has_bigint (snd kv)) fs
  | _ => false
  end.

(** The outcome of running a piece of code. *)
Inductive Completion (A : Type) : Type :=
| Normal (a : A)
| Throw (e : JsVal).
Arguments Normal {A} a.
Arguments Throw {A} e.

Definition Eff (S A : Type) : Type := S -> Completion A * S.

Definition ret {S A} (a : A) : Eff S A := fun s => (Normal a, s).

Definition throw {S A} (e : JsVal) : Eff S A := fun s => (Throw e, s).

Definition bind {S A B} (m : Eff S A) (k : A -> Eff S B) : Eff S B :=
  fun s =>
    match m s with
    | (Normal a, s') => k a s'
    | (Throw e, s') => (Throw e, s')
    end.

(** [try { body } catch (error) { handler }]. *)
Definition try_catch {S A} (body : Eff S A) (handler : JsVal -> Eff S A)
  : Eff S A :=
  fun s =>
    match body s with
    | (Normal a, s') => (Normal a, s')
    | (Throw e, s') => handler e s'
    end.

Definition modify {S} (f : S -> S) : Eff S unit := fun s => (Normal tt, f s).

Definition gets {S A} (f : S -> A) : Eff S A := fun s => (Normal (f s), s).

(** A statement that reads the current state. *)
Definition reading {S A} (k : S -> Eff S A) : Eff S A := fun s => k s s.

(** [Array.prototype.forEach] with a callback that may throw: the first
    exception leaves the loop and propagates to the caller. *)
Fixpoint forEach {S A} (xs : list A) (f : A -> Eff S unit) : Eff S unit :=
  match xs with
  | [] => ret tt
  | x :: xs' => bind (f x) (fun _ => forEach xs' f)
  end.

Definition completes_normally {S A} (r : Completion A * S) : bool :=
  match r with
  | (Normal _, _) => true
  | (Throw _, _) => false
  end.

Definition state_of {S A} (r : Completion A * S) : S := snd r.

End Js.

Export Js.

(** The completions form a monad; stdpp's [x ← m; k] and [m;; k] are used
    for sequencing statements. *)
#[export] Instance eff_ret {S} : MRet (Eff S) := fun A a => ret a.
#[export] Instance eff_bind {S} : MBind (Eff S) := fun A B k m => bind m k.

(* ===================================================================== *)
(** ** The WebSocket service (frontend/src/services/websocket.js) *)
(* ===================================================================== *)

Module WebSocketService.

Inductive ReadyState : Type := CONNECTING | OPEN | CLOSING | CLOSED.

#[export] Instance ReadyState_eq_dec : EqDecision ReadyState.
Proof. solve_decision. Defined.

(** What went over the wire: the string passed to [ws.send]. A string
    message is sent as it is, any other message as its JSON text, kept
    here as the value that was serialised. *)
Inductive Frame : Type :=
| FText (s : string)
| FJson (v : JsVal).

(** A browser [WebSocket] object. [opened_as] is the [userId] captured by
    the callbacks that [connect] installed on it. *)
Record Socket : Type := mkSocket {
  sock_url : string;
  opened_as : string;
  readyState : ReadyState;
  sent : list Frame
}.

(** A registered callback. Handlers are compared by reference in
    [off]; [hid] stands for the reference. A handler runs on the state of
    the view that registered it and may throw; it does not call [on],
    [off] or [connect] while it is being dispatched, as none of the
    handlers of the views does. *)
Record Handler : Type := mkHandler {
  hid : nat;
  run : JsVal -> Eff JsVal unit
}.

(** The console, one constructor per message of the source. *)
Inductive LogEntry : Type :=
| LogAlreadyConnected
| LogConnecting (urlWithUser : string)
| LogConnected (userId : string)
| LogReceived (message : JsVal)
| ErrParsing
| LogClosed (code : Z) (reason : string)
| ErrSocket (error : JsVal)
| ErrCreate (error : JsVal)
| LogScheduling (attempt : nat) (delay : Z)
| LogSent (message : JsVal)
| ErrSending (error : JsVal)
| WarnNotConnected (message : JsVal)
| LogCase (label : string) (message : JsVal)
| LogUnhandled (messageType : JsVal) (message : JsVal)
| ErrHandler (type : string) (error : JsVal)
| LogSubscribed (messageType : string).

(** The fields of the [WebSocketService] singleton. [ws] refers to a
    socket of the heap; [None] is [null]. *)
Record Service : Type := mkService {
  ws : option nat;
  reconnectAttempts : nat;
  maxReconnectAttempts : nat;
  reconnectDelay : Z;
  messageHandlers : gmap string (list Handler);
  isConnecting : bool;
  isManuallyDisconnected : bool;
  currentUserId : option string;
  currentUrl : option string
}.

(** The page: the service, the sockets created so far, the pending
    [setTimeout] callbacks of [scheduleReconnect] (by delay in ms), the
    console and the state of the views. *)
Record World : Type := mkWorld {
  this : Service;
  heap : list Socket;
  timers : list Z;
  console : list LogEntry;
  app : JsVal
}.

(** [constructor()]. *)
Definition constructor : Service :=
  {| ws := None;
     reconnectAttempts := 0;
     maxReconnectAttempts := 5;
     reconnectDelay := 1000%Z;
     messageHandlers := ∅;
     isConnecting := false;
     isManuallyDisconnected := false;
     currentUserId := None;
     currentUrl := None |}.

Definition initial_world : World :=
  {| this := constructor; heap := []; timers := []; console := [];
     app := VUndefined |}.

(** Field assignments. *)
Definition set_ws (v : option nat) (s : Service) : Service :=
  mkService v (reconnectAttempts s) (maxReconnectAttempts s)
    (reconnectDelay s) (messageHandlers s) (isConnecting s)
    (isManuallyDisconnected s) (currentUserId s) (currentUrl s).

Definition set_reconnectAttempts (v : nat) (s : Service) : Service :=
  mkService (ws s) v (maxReconnectAttempts s)
    (reconnectDelay s) (messageHandlers s) (isConnecting s)
    (isManuallyDisconnected s) (currentUserId s) (currentUrl s).

Definition set_reconnectDelay (v : Z) (s : Service) : Service :=
  mkService (ws s) (reconnectAttempts s) (maxReconnectAttempts s)
    v (messageHandlers s) (isConnecting s)
    (isManuallyDisconnected s) (currentUserId s) (currentUrl s).

Definition set_messageHandlers (v : gmap string (list Handler))
  (s : Service) : Service :=
  mkService (ws s) (reconnectAttempts s) (maxReconnectAttempts s)
    (reconnectDelay s) v (isConnecting s)
    (isManuallyDisconnected s) (currentUserId s) (currentUrl s).

Definition set_isConnecting (v : bool) (s : Service) : Service :=
  mkService (ws s) (reconnectAttempts s) (maxReconnectAttempts s)
    (reconnectDelay s) (messageHandlers s) v
    (isManuallyDisconnected s) (currentUserId s) (currentUrl s).

Definition set_isManuallyDisconnected (v : bool) (s : Service) : Service :=
  mkService (ws s) (reconnectAttempts s) (maxReconnectAttempts s)
    (reconnectDelay s) (messageHandlers s) (isConnecting s)
    v (currentUserId s) (currentUrl s).

Definition set_currentUserId (v : option string) (s : Service) : Service :=
  mkService (ws s) (reconnectAttempts s) (maxReconnectAttempts s)
    (reconnectDelay s) (messageHandlers s) (isConnecting s)
    (isManuallyDisconnected s) v (currentUrl s).

Definition set_currentUrl (v : option string) (s : Service) : Service :=
  mkService (ws s) (reconnectAttempts s) (maxReconnectAttempts s)
    (reconnectDelay s) (messageHandlers s) (isConnecting s)
    (isManuallyDisconnected s) (currentUserId s) v.

Definition on_this (f : Service -> Service) : Eff World unit :=
  modify (fun w => mkWorld (f (this w)) (heap w) (timers w) (console w) (app w)).

Definition on_heap (f : list Socket -> list Socket) : Eff World unit :=
  modify (fun w => mkWorld (this w) (f (heap w)) (timers w) (console w) (app w)).

Definition on_timers (f : list Z -> list Z) : Eff World unit :=
  modify (fun w => mkWorld (this w) (heap w) (f (timers w)) (console w) (app w)).

(** [console.log], [console.warn], [console.error]. *)
Definition log (e : LogEntry) : Eff World unit :=
  modify (fun w => mkWorld (this w) (heap w) (timers w) (console w ++ [e]) (app w)).

(** Running a handler of a view on the view's state. *)
Definition call_handler (h : Handler) (data : JsVal) : Eff World unit :=
  fun w =>
    let r := run h data (app w) in
    (fst r, mkWorld (this w) (heap w) (timers w) (console w) (snd r)).

(** [this.ws && this.ws.readyState === WebSocket.OPEN]. *)
Definition ws_is_open (w : World) : bool :=
  match ws (this w) with
  | Some i =>
      match heap w !! i with
      | Some sk => bool_decide (readyState sk = OPEN)
      | None => false
      end
  | None => false
  end.

Definition set_readyState (r : ReadyState) (sk : Socket) : Socket :=
  mkSocket (sock_url sk) (opened_as sk) r (sent sk).

(** The browser's [WebSocket.prototype.send]: an InvalidStateError while
    CONNECTING, transmission while OPEN, silently dropped afterwards. *)
Definition socket_send (i : nat) (f : Frame) : Eff World unit :=
  fun w =>
    match heap w !! i with
    | Some sk =>
        match readyState sk with
        | CONNECTING => throw (VStr "InvalidStateError") w
        | OPEN =>
            on_heap (fun h =>
              <[i := mkSocket (sock_url sk) (opened_as sk) OPEN (sent sk ++ [f])]> h) w
        | CLOSING | CLOSED => ret tt w
        end
    | None => throw (VStr "TypeError") w
    end.

(** The browser's [WebSocket.prototype.close]: starts the closing
    handshake unless it is already under way or done. *)
Definition socket_close (i : nat) : Eff World unit :=
  on_heap (fun h =>
    match h !! i with
    | Some sk =>
        match readyState sk with
        | CONNECTING | OPEN => <[i := set_readyState CLOSING sk]> h
        | CLOSING | CLOSED => h
        end
    | None => h
    end).

(** [typeof message === 'string' ? message : JSON.stringify(message)]. *)
Definition stringify (message : JsVal) : Eff World Frame :=
  match message with
  | VStr s => ret (FText s)
  | _ =>
      if has_bigint message then throw (VStr "TypeError")
      else ret (FJson message)
  end.

(** [send(message)]. *)
Definition send (message : JsVal) : Eff World unit :=
  fun w =>
    if ws_is_open w then
      try_catch
        (messageStr ← stringify message;
         match ws (this w) with
         | Some i => socket_send i messageStr
         | None => throw (VStr "TypeError")
         end;;
         log (LogSent message))
        (fun error => log (ErrSending error)) w
    else
      log (WarnNotConnected message) w.

(** [notifyHandlers(type, data)]. *)
Definition notifyHandlers (type : string) (data : JsVal) : Eff World unit :=
  fun w =>
    match messageHandlers (this w) !! type with
    | Some handlers =>
        forEach handlers
          (fun handler =>
             try_catch (call_handler handler data)
               (fun error => log (ErrHandler type error))) w
    | None => ret tt w
    end.

(** [on(messageType, handler)]. *)
Definition on (messageType : string) (handler : Handler) : Eff World unit :=
  on_this (fun s =>
    set_messageHandlers
      (<[messageType := default [] (messageHandlers s !! messageType) ++ [handler]]>
         (messageHandlers s)) s);;
  log (LogSubscribed messageType).

(** [handlers.indexOf(handler)] then [handlers.splice(index, 1)]. *)
Fixpoint remove_first (n : nat) (hs : list Handler) : list Handler :=
  match hs with
  | [] => []
  | h :: hs' => if Nat.eqb (hid h) n then hs' else h :: remove_first n hs'
  end.

(** [off(messageType, handler)]. *)
Definition off (messageType : string) (handler : Handler) : Eff World unit :=
  on_this (fun s =>
    match messageHandlers s !! messageType with
    | Some handlers =>
        let handlers' := remove_first (hid handler) handlers in
        set_messageHandlers
          (match handlers' with
           | [] => delete messageType (messageHandlers s)
           | _ => <[messageType := handlers']> (messageHandlers s)
           end) s
    | None => s
    end).

(** The [case] labels of the [switch] in [handleMessage]. *)
Definition switch_cases : list string :=
  ["pong"; "connection_status"; "sensor_data"; "mqtt_status"; "publish_ack";
   "subscription_ack"; "unsubscription_ack"; "permission_revoked";
   "system_alert"; "device_status"; "mqtt_publish"].

(** [handleMessage(message)]. Reading [message.type] throws on [null] and
    [undefined]. *)
Definition handleMessage (message : JsVal) : Eff World unit :=
  match message with
  | VUndefined | VNull => throw (VStr "TypeError")
  | _ =>
      let messageType := get "type" message in
      (if truthy messageType then
         match messageType with
         | VStr t => notifyHandlers t message
         | _ => ret tt
         end
       else ret tt);;
      match messageType with
      | VStr t =>
          if bool_decide (t ∈ switch_cases) then log (LogCase t message)
          else log (LogUnhandled messageType message)
      | _ => log (LogUnhandled messageType message)
      end
  end.

(** [Array.isArray(topics) ? topics : [topics]]. *)
Definition as_array (topics : JsVal) : JsVal :=
  match topics with
  | VArr _ => topics
  | _ => VArr [topics]
  end.

(** A parameter with a default value: [undefined] takes the default. *)
Definition default_param (d v : JsVal) : JsVal :=
  match v with
  | VUndefined => d
  | _ => v
  end.

(** The object literals passed to [send] by the MQTT methods. *)
Definition subscribe_message (topics qos : JsVal) : JsVal :=
  VObj [("type", VStr "subscribe"); ("topics", as_array topics);
        ("qos", default_param (VNum 1) qos)].

Definition unsubscribe_message (topics : JsVal) : JsVal :=
  VObj [("type", VStr "unsubscribe"); ("topics", as_array topics)].

Definition publish_message (topic payload qos retain : JsVal) : JsVal :=
  VObj [("type", VStr "publish"); ("topic", topic); ("payload", payload);
        ("qos", default_param (VNum 1) qos);
        ("retain", default_param (VBool false) retain)].

Definition get_status_message : JsVal := VObj [("type", VStr "get_status")].

Definition get_all_users_message : JsVal :=
  VObj [("type", VStr "get_all_users")].

Definition ping_message (now_iso : string) : JsVal :=
  VObj [("type", VStr "ping"); ("timestamp", VStr now_iso)].

(** [subscribeMQTT], [unsubscribeMQTT], [publishMQTT], [getMQTTStatus],
    [getAllUsers], [ping]. *)
Definition subscribeMQTT (topics qos : JsVal) : Eff World unit :=
  send (subscribe_message topics qos).

Definition unsubscribeMQTT (topics : JsVal) : Eff World unit :=
  send (unsubscribe_message topics).

Definition publishMQTT (topic payload qos retain : JsVal) : Eff World unit :=
  send (publish_message topic payload qos retain).

Definition getMQTTStatus : Eff World unit := send get_status_message.

Definition getAllUsers : Eff World unit := send get_all_users_message.

Definition ping (now_iso : string) : Eff World unit :=
  send (ping_message now_iso).

Section Connection.

(** Whether [new WebSocket(url)] accepts the URL; it throws a SyntaxError
    otherwise. *)
Variable url_parses : string -> bool.

(** [new WebSocket(urlWithUser)]: a fresh socket in state CONNECTING. *)
Definition new_WebSocket (urlWithUser userId : string) : Eff World nat :=
  fun w =>
    if url_parses urlWithUser then
      (Normal (length (heap w)),
       mkWorld (this w) (heap w ++ [mkSocket urlWithUser userId CONNECTING []])
         (timers w) (console w) (app w))
    else throw (VStr "SyntaxError") w.

(** [connect(url, userId)]. The promise it returns is settled by
    [resolve]/[reject], which change nothing in the service. *)
Definition connect (url userId : string) : Eff World unit :=
  fun w =>
    if isConnecting (this w) || ws_is_open w then
      log LogAlreadyConnected w
    else
      (on_this (set_isConnecting true);;
       on_this (set_isManuallyDisconnected false);;
       on_this (set_currentUserId (Some userId));;
       on_this (set_currentUrl (Some url));;
       let urlWithUser := url +:+ "?user_id=" +:+ userId in
       try_catch
         (log (LogConnecting urlWithUser);;
          i ← new_WebSocket urlWithUser userId;
          on_this (set_ws (Some i)))
         (fun error =>
            log (ErrCreate error);;
            on_this (set_isConnecting false))) w.

(** [this.ws.onopen]. *)
Definition onopen (userId : string) : Eff World unit :=
  log (LogConnected userId);;
  on_this (set_isConnecting false);;
  on_this (set_reconnectAttempts 0);;
  on_this (set_reconnectDelay 1000%Z).

(** [this.ws.onmessage]; [parsed] is the result of
    [JSON.parse(event.data)], [None] when it throws. *)
Definition onmessage (parsed : option JsVal) : Eff World unit :=
  try_catch
    (match parsed with
     | Some message => log (LogReceived message);; handleMessage message
     | None => throw (VStr "SyntaxError")
     end)
    (fun error => log ErrParsing).

(** The callback given to [setTimeout] by [scheduleReconnect]. *)
Definition reconnect_callback : Eff World unit :=
  fun w =>
    match currentUrl (this w), currentUserId (this w) with
    | Some url, Some userId =>
        if negb (isManuallyDisconnected (this w))
           && negb (String.eqb url "") && negb (String.eqb userId "")
        then connect url userId w
        else ret tt w
    | _, _ => ret tt w
    end.

(** [scheduleReconnect()]. *)
Definition scheduleReconnect : Eff World unit :=
  on_this (fun s => set_reconnectAttempts (S (reconnectAttempts s)) s);;
  attempts ← gets (fun w => reconnectAttempts (this w));
  base ← gets (fun w => reconnectDelay (this w));
  let delay := Z.min (base * 2 ^ Z.of_nat (attempts - 1)) 30000 in
  log (LogScheduling attempts delay);;
  on_timers (fun ts => ts ++ [delay]).

(** [this.ws.onclose]. *)
Definition onclose (code : Z) (reason : string) : Eff World unit :=
  log (LogClosed code reason);;
  on_this (set_isConnecting false);;
  notifyHandlers "connection_status"
    (VObj [("status", VStr "disconnected"); ("event", VStr "close");
           ("code", VNum (inject_Z code)); ("reason", VStr reason)]);;
  reading (fun w =>
    if negb (isManuallyDisconnected (this w))
       && Nat.ltb (reconnectAttempts (this w)) (maxReconnectAttempts (this w))
    then scheduleReconnect
    else ret tt).

(** [this.ws.onerror]. *)
Definition onerror (error : JsVal) : Eff World unit :=
  log (ErrSocket error);;
  on_this (set_isConnecting false);;
  notifyHandlers "connection_status"
    (VObj [("status", VStr "error"); ("event", VStr "error");
           ("error", error)]).

(** [disconnect()]. *)
Definition disconnect : Eff World unit :=
  on_this (set_isManuallyDisconnected true);;
  on_this (fun s => set_reconnectAttempts (maxReconnectAttempts s) s);;
  reading (fun w =>
     match ws (this w) with
     | Some i => socket_close i;; on_this (set_ws None)
     | None => ret tt
     end);;
  on_this (set_currentUserId None);;
  on_this (set_currentUrl None).

(** What can happen to the page: a view calls a method of the service,
    the browser fires a callback of a socket, or a timer set by
    [scheduleReconnect] expires. *)
Inductive Event : Type :=
| CallConnect (url userId : string)
| CallDisconnect
| CallSend (message : JsVal)
| CallOn (messageType : string) (handler : Handler)
| CallOff (messageType : string) (handler : Handler)
| SocketOpen (i : nat)
| SocketMessage (i : nat) (parsed : option JsVal)
| SocketClose (i : nat) (code : Z) (reason : string)
| SocketError (i : nat) (error : JsVal)
| TimerFires (k : nat).

(** The browser moves the socket to its new state before it calls the
    callback. *)
Definition socket_event (i : nat) (r : option ReadyState)
  (callback : string -> Eff World unit) : Eff World unit :=
  fun w =>
    match heap w !! i with
    | Some sk =>
        (on_heap (fun h =>
           match r with
           | Some r' => <[i := set_readyState r' sk]> h
           | None => h
           end);;
         callback (opened_as sk)) w
    | None => ret tt w
    end.

Definition dispatch (e : Event) : Eff World unit :=
  match e with
  | CallConnect url userId => connect url userId
  | CallDisconnect => disconnect
  | CallSend message => send message
  | CallOn t h => on t h
  | CallOff t h => off t h
  | SocketOpen i => socket_event i (Some OPEN) onopen
  | SocketMessage i parsed => socket_event i None (fun _ => onmessage parsed)
  | SocketClose i code reason =>
      socket_event i (Some CLOSED) (fun _ => onclose code reason)
  | SocketError i error => socket_event i None (fun _ => onerror error)
  | TimerFires k =>
      fun w =>
        match timers w !! k with
        | Some _ => (on_timers (delete k);; reconnect_callback) w
        | None => ret tt w
        end
  end.

(** One turn of the event loop; an exception that escapes a callback ends
    the turn and leaves the state as it is. *)
Definition step (w : World) (e : Event) : World := snd (dispatch e w).

Definition run_events (w : World) (es : list Event) : World :=
  fold_left step es w.

(** Everything but an explicit call of [connect] by a view. *)
Definition is_connect_call (e : Event) : bool :=
  match e with
  | CallConnect _ _ => true
  | _ => false
  end.

(** Console entries that show the service scheduling a reconnect or
    entering [connect]. *)
Definition reconnect_activity (l : LogEntry) : bool :=
  match l with
  | LogScheduling _ _ | LogAlreadyConnected | LogConnecting _ | ErrCreate _ => true
  | _ => false
  end.

End Connection.

End WebSocketService.

(* ===================================================================== *)
(** ** The first version of the service (src/services/websocket.js)

    [send], [notifyHandlers], [on] and [off] are the same text as in the
    later version; the methods that send differ. *)
(* ===================================================================== *)

Module LegacyService.

Import WebSocketService.

(** [subscribe(topics)]. *)
Definition subscribe_message (topics : JsVal) : JsVal :=
  VObj [("type", VStr "subscribe"); ("topics", as_array topics)].

Definition subscribe (topics : JsVal) : Eff World unit :=
  send (subscribe_message topics).

(** [requestStatus()]. *)
Definition requestStatus : Eff World unit := send get_status_message.

(** [onopen] confirms the connection with a ping. *)
Definition onopen_ping (now_iso : string) : Eff World unit :=
  send (ping_message now_iso).

End LegacyService.

(* ===================================================================== *)
(** ** The Dashboard view (Dashboard.vue) *)
(* ===================================================================== *)

Module Dashboard.

Import WebSocketService.

(** What a handler reads from the clock and from [Math.random]:
    [fresh_id] is the number [Date.now() + Math.random()] evaluates to and
    [iso_now] the text of [new Date().toISOString()]. *)
Record Clock : Type := mkClock {
  fresh_id : Q;
  iso_now : string
}.

(** The message of a toast: a string literal, or the template
    [`${LEVEL}: ${message}`] with the values substituted in it. *)
Inductive ToastText : Type :=
| Literal (s : string)
| LevelAndMessage (LEVEL : string) (message : JsVal).

(** The refs of the view. *)
Record View : Type := mkView {
  isConnected : bool;
  devices : list JsVal;
  latestSensorData : list JsVal;
  systemAlerts : list JsVal;
  toasts : list (ToastText * string)
}.

Definition set_devices (v : list JsVal) (s : View) : View :=
  mkView (isConnected s) v (latestSensorData s) (systemAlerts s) (toasts s).

Definition set_latestSensorData (v : list JsVal) (s : View) : View :=
  mkView (isConnected s) (devices s) v (systemAlerts s) (toasts s).

Definition set_systemAlerts (v : list JsVal) (s : View) : View :=
  mkView (isConnected s) (devices s) (latestSensorData s) v (toasts s).

(** [showToast(message, color)]: an async function, so the call returns
    a promise and never throws; the toast asked for is recorded. *)
Definition showToast (message : ToastText) (color : string) : Eff View unit :=
  modify (fun s =>
    mkView (isConnected s) (devices s) (latestSensorData s) (systemAlerts s)
      (toasts s ++ [(message, color)])).

(** [===] on the values that occur as levels and device ids; objects and
    arrays are compared by reference and a parsed message is never the
    same object as a stored one. *)
Definition strict_equal (a b : JsVal) : bool :=
  match a, b with
  | VUndefined, VUndefined | VNull, VNull => true
  | VBool x, VBool y => Bool.eqb x y
  | VNum x, VNum y => Qeq_bool x y
  | VBigInt x, VBigInt y => Z.eqb x y
  | VStr x, VStr y => String.eqb x y
  | _, _ => false
  end.

(** Reading a property of [null] or [undefined] throws. *)
Definition member (k : string) (v : JsVal) : Eff View JsVal :=
  match v with
  | VUndefined | VNull => throw (VStr "TypeError")
  | _ => ret (get k v)
  end.

(** Evaluating a template literal that substitutes [v]. *)
Definition template_with (v : JsVal) : Eff View unit :=
  if to_string_throws v then throw (VStr "TypeError") else ret tt.

(** [array.unshift(x)] followed by
    [if (array.length > n) array = array.slice(0, n)]. *)
Definition unshift_capped (n : nat) (x : JsVal) (array : list JsVal)
  : list JsVal :=
  let array' := x :: array in
  if Nat.ltb n (length array') then take n array' else array'.

(** The [alert] object built by [handleSystemAlert]. *)
Definition alert_entry (c : Clock) (level message details : JsVal) : JsVal :=
  VObj [("id", VNum (fresh_id c));
        ("level", level); ("message", message); ("details", details);
        ("timestamp", VStr (iso_now c))].

(** [data.level.toUpperCase()]; the call is reached for the strings
    ['error'] and ['critical'] only. *)
Definition toUpperCase (level : JsVal) : string :=
  match level with
  | VStr "error" => "ERROR"
  | VStr "critical" => "CRITICAL"
  | _ => ""
  end.

(** [handleSystemAlert(data)]. *)
Definition handleSystemAlert (c : Clock) (data : JsVal) : Eff View unit :=
  level ← member "level" data;
  message ← member "message" data;
  details ← member "details" data;
  let alert := alert_entry c level message details in
  modify (fun s => set_systemAlerts (unshift_capped 20 alert (systemAlerts s)) s);;
  if strict_equal level (VStr "error") || strict_equal level (VStr "critical")
  then
    template_with message;;
    showToast (LevelAndMessage (toUpperCase level) message) "danger"
  else ret tt.

(** The [sensorReading] object built by [handleSensorData]. *)
Definition sensor_entry (c : Clock) (data inner : JsVal) : JsVal :=
  VObj [("id", VNum (fresh_id c));
        ("device_id", or_else (get "device_id" inner) (VStr "unknown"));
        ("sensor_type", or_else (get "sensor_type" inner) (VStr "unknown"));
        ("value", get "value" inner);
        ("unit", or_else (get "unit" inner) (VStr ""));
        ("timestamp", or_else (get "timestamp" inner) (VStr (iso_now c)));
        ("topic", get "topic" data);
        ("qos", get "qos" data);
        ("retain", get "retain" data)].

(** [handleSensorData(data)]. The line written to the console when a
    device is discovered is not recorded; building its text may throw. *)
Definition handleSensorData (c : Clock) (data : JsVal) : Eff View unit :=
  inner ← member "data" data;
  _ ← member "device_id" inner;
  let sensorReading := sensor_entry c data inner in
  modify (fun s =>
    set_latestSensorData (unshift_capped 50 sensorReading (latestSensorData s)) s);;
  let deviceId := get "device_id" sensorReading in
  reading (fun s =>
    if negb (strict_equal deviceId (VStr "unknown"))
       && negb (existsb (strict_equal deviceId) (devices s))
    then
      modify (set_devices (devices s ++ [deviceId]));;
      template_with deviceId
    else ret tt).

(** The object literals the view passes to [webSocketService.send]. *)
Definition get_system_info_message : JsVal :=
  VObj [("type", VStr "get_system_info")].

Definition reload_acl_message : JsVal := VObj [("type", VStr "reload_acl")].

Definition reload_ss_message : JsVal := VObj [("type", VStr "reload_ss")].

(** [requestSystemStatus], [requestUsersList], [requestSystemInfo] and
    [reloadConfigurations], as the messages they hand to the service; each
    returns at once when the view is not connected. *)
Definition requestSystemStatus (s : View) : list JsVal :=
  if negb (isConnected s) then [] else [get_status_message].

Definition requestUsersList (s : View) : list JsVal :=
  if negb (isConnected s) then [] else [get_all_users_message].

Definition requestSystemInfo (s : View) : list JsVal :=
  if negb (isConnected s) then [] else [get_system_info_message].

Definition reloadConfigurations (s : View) : list JsVal :=
  if negb (isConnected s) then [] else [reload_acl_message; reload_ss_message].

(** The message types for which [onMounted] registers a handler. *)
Definition registered_types : list string :=
  ["connection_status"; "sensor_data"; "system_alert"; "publish_ack";
   "users_list"; "status"; "system_info"; "device_status"; "mqtt_status"].

End Dashboard.

(* ===================================================================== *)
(** ** The DeviceDetails view (DeviceDetails.vue) *)
(* ===================================================================== *)

Module DeviceDetails.

(** The message types for which [onMounted] registers a handler. *)
Definition registered_types : list string :=
  ["connection_status"; "sensor_data"; "mqtt_status"; "publish_ack";
   "subscription_ack"; "unsubscription_ack"; "permission_revoked";
   "system_alert"].

End DeviceDetails.

(* ===================================================================== *)
(** ** The Pinia store (stores/iot.js, the version with alerts) *)
(* ===================================================================== *)

Module IotStore.

Import Dashboard.

Record Store : Type := mkStore {
  st_devices : list JsVal;
  st_latestSensorData : list JsVal;
  st_activeUsers : list JsVal;
  st_systemAlerts : list JsVal
}.

(** [{ id: Date.now() + Math.random(), ...alert, timestamp: now }];
    [alert] is an object. *)
Definition stored_alert (c : Clock) (alert : JsObj) : JsVal :=
  VObj (obj_set "timestamp" (VStr (iso_now c))
          (spread alert [("id", VNum (fresh_id c))])).

(** [addSystemAlert(alert)]; [alert] is an object. *)
Definition addSystemAlert (c : Clock) (alert : JsObj) (s : Store) : Store :=
  mkStore (st_devices s) (st_latestSensorData s) (st_activeUsers s)
    (unshift_capped 20 (stored_alert c alert) (st_systemAlerts s)).

(** [{ id: ..., ...reading, timestamp: reading.timestamp || now }]. *)
Definition stored_reading (c : Clock) (reading : JsObj) : JsVal :=
  VObj (obj_set "timestamp"
          (or_else (assoc_get "timestamp" reading) (VStr (iso_now c)))
          (spread reading [("id", VNum (fresh_id c))])).

(** [addSensorReading(reading)]; [reading] is an object. *)
Definition addSensorReading (c : Clock) (reading : JsObj) (s : Store) : Store :=
  mkStore (st_devices s)
    (unshift_capped 50 (stored_reading c reading) (st_latestSensorData s))
    (st_activeUsers s) (st_systemAlerts s).

(** [dismissAlert(alertId)]. *)
Definition dismissAlert (alertId : JsVal) (s : Store) : Store :=
  mkStore (st_devices s) (st_latestSensorData s) (st_activeUsers s)
    (filter (fun alert => negb (strict_equal (get "id" alert) alertId))
       (st_systemAlerts s)).

(** [loadLatestData]'s assignment of the server's answer. *)
Definition setLatestData (data : list JsVal) (s : Store) : Store :=
  mkStore (st_devices s) data (st_activeUsers s) (st_systemAlerts s).

End IotStore.

(* ===================================================================== *)
(** ** The SSManagement view (SSManagement.vue) *)
(* ===================================================================== *)

Module SSManagement.

(** The content of a numeric input of a form. *)
Inductive NumInput : Type :=
| Blank
| Typed (q : Q)
| NotNumeric (s : string).

(** [Number(x)]; [None] is NaN. *)
Definition Number (x : NumInput) : option Q :=
  match x with
  | Blank => Some 0%Q
  | Typed q => Some q
  | NotNumeric _ => None
  end.

(** A limit configuration as the forms hold it. *)
Record LimitForm : Type := mkLimitForm {
  name : string;
  upper_limit : NumInput;
  lower_limit : NumInput;
  unit' : string;
  is_selected : bool
}.

(** A limit configuration as [createSensor] sends it. *)
Record Limit : Type := mkLimit {
  l_name : string;
  l_upper_limit : option Q;
  l_lower_limit : option Q;
  l_unit : string;
  l_is_selected : bool
}.

(** [newSensor]. *)
Record NewSensor : Type := mkNewSensor {
  sensorId : string;
  n_pattern : string;
  sensorType : string;
  n_is_active : bool;
  n_limits : list LimitForm
}.

(** [editingSensor], when it is not [null]. *)
Record EditingSensor : Type := mkEditingSensor {
  e_sensor_id : string;
  e_pattern : string;
  e_sensor_type : string;
  e_is_active : bool;
  e_limits : list LimitForm
}.

(** The body of [POST /api/ss/sensors]. *)
Record SensorPayload : Type := mkSensorPayload {
  p_sensor_id : string;
  p_pattern : string;
  p_sensor_type : string;
  p_is_active : bool;
  p_limits : list Limit
}.

(** The body of [PUT /api/ss/sensors/:id]: the limits go out as the form
    holds them. *)
Record UpdatePayload : Type := mkUpdatePayload {
  u_pattern : string;
  u_sensor_type : string;
  u_is_active : bool;
  u_limits : list LimitForm
}.

(** An alert as the server returns it. *)
Record Alert : Type := mkAlert {
  id : nat;
  sensor_id : string;
  alert_type : string;
  message : string;
  triggered_value : Q;
  limit_value : Q;
  a_unit : string;
  mqtt_topic : string;
  triggered_at : string;
  is_resolved : bool;
  resolved_at : option string
}.

(** The refs of the view. *)
Record View : Type := mkView {
  newSensor : NewSensor;
  editingSensor : option EditingSensor;
  showEditModal : bool;
  sensors : list SensorPayload;
  alerts : list Alert;
  ssInfo : JsVal;
  addError : string;
  updateError : string;
  resolveError : string;
  toasts : list (string * string)
}.

(** The form as it is after a reset. *)
Definition blank_sensor : NewSensor :=
  {| sensorId := ""; n_pattern := ""; sensorType := ""; n_is_active := true;
     n_limits := [mkLimitForm "" Blank Blank "" true] |}.

(** [apiService]: what the server does with each request. A rejected
    promise is a thrown completion; the GET requests do not change the
    server. *)
Record Api (Server : Type) : Type := mkApi {
  addSensor : SensorPayload -> Eff Server unit;
  updateSensor : string -> UpdatePayload -> Eff Server unit;
  getAllSensors : bool -> Server -> Completion (list SensorPayload);
  getSSInfo : Server -> Completion JsVal;
  getAlerts : Server -> Completion (list Alert);
  resolveAlert : nat -> Eff Server JsVal;
  revertAlert : nat -> Eff Server JsVal
}.
Arguments addSensor {Server}.
Arguments updateSensor {Server}.
Arguments getAllSensors {Server}.
Arguments getSSInfo {Server}.
Arguments getAlerts {Server}.
Arguments resolveAlert {Server}.
Arguments revertAlert {Server}.

Section ViewMethods.

Context {Server : Type} (apiService : Api Server).

(** The page and the server it talks to. *)
Record Page : Type := mkPage {
  view : View;
  server : Server
}.

Definition on_view (f : View -> View) : Eff Page unit :=
  modify (fun p => mkPage (f (view p)) (server p)).

(** A request that may change the server. *)
Definition request {A} (r : Eff Server A) : Eff Page A :=
  fun p => let out := r (server p) in (fst out, mkPage (view p) (snd out)).

(** A GET request. *)
Definition fetch {A} (r : Server -> Completion A) : Eff Page A :=
  fun p => (r (server p), p).

Definition set_newSensor (v : NewSensor) (s : View) : View :=
  mkView v (editingSensor s) (showEditModal s) (sensors s) (alerts s)
    (ssInfo s) (addError s) (updateError s) (resolveError s) (toasts s).

Definition set_editingSensor (v : option EditingSensor) (s : View) : View :=
  mkView (newSensor s) v (showEditModal s) (sensors s) (alerts s)
    (ssInfo s) (addError s) (updateError s) (resolveError s) (toasts s).

Definition set_showEditModal (v : bool) (s : View) : View :=
  mkView (newSensor s) (editingSensor s) v (sensors s) (alerts s)
    (ssInfo s) (addError s) (updateError s) (resolveError s) (toasts s).

Definition set_sensors (v : list SensorPayload) (s : View) : View :=
  mkView (newSensor s) (editingSensor s) (showEditModal s) v (alerts s)
    (ssInfo s) (addError s) (updateError s) (resolveError s) (toasts s).

Definition set_alerts (v : list Alert) (s : View) : View :=
  mkView (newSensor s) (editingSensor s) (showEditModal s) (sensors s) v
    (ssInfo s) (addError s) (updateError s) (resolveError s) (toasts s).

Definition set_ssInfo (v : JsVal) (s : View) : View :=
  mkView (newSensor s) (editingSensor s) (showEditModal s) (sensors s)
    (alerts s) v (addError s) (updateError s) (resolveError s) (toasts s).

Definition set_addError (v : string) (s : View) : View :=
  mkView (newSensor s) (editingSensor s) (showEditModal s) (sensors s)
    (alerts s) (ssInfo s) v (updateError s) (resolveError s) (toasts s).

Definition set_updateError (v : string) (s : View) : View :=
  mkView (newSensor s) (editingSensor s) (showEditModal s) (sensors s)
    (alerts s) (ssInfo s) (addError s) v (resolveError s) (toasts s).

Definition set_resolveError (v : string) (s : View) : View :=
  mkView (newSensor s) (editingSensor s) (showEditModal s) (sensors s)
    (alerts s) (ssInfo s) (addError s) (updateError s) v (toasts s).

Definition showToast (message color : string) : Eff Page unit :=
  on_view (fun s =>
    mkView (newSensor s) (editingSensor s) (showEditModal s) (sensors s)
      (alerts s) (ssInfo s) (addError s) (updateError s) (resolveError s)
      (toasts s ++ [(message, color)])).

(** [limits.filter(limit => limit.is_selected).length]. *)
Definition selected_count (limits : list LimitForm) : nat :=
  length (List.filter is_selected limits).

(** [addSelectedLimitsCount] and [editSelectedLimitsCount]. *)
Definition addSelectedLimitsCount (s : View) : nat :=
  selected_count (n_limits (newSensor s)).

Definition editSelectedLimitsCount (s : View) : nat :=
  match editingSensor s with
  | Some e => selected_count (e_limits e)
  | None => 0
  end.

(** [loadSSInfo], [loadSensors], [loadAlerts]: each catches its own
    failure. *)
Definition loadSSInfo : Eff Page unit :=
  try_catch
    (data ← fetch (getSSInfo apiService); on_view (set_ssInfo data))
    (fun _ => showToast "Failed to load SS info" "danger").

Definition loadSensors : Eff Page unit :=
  try_catch
    (data ← fetch (getAllSensors apiService false); on_view (set_sensors data))
    (fun _ => showToast "Failed to load sensors" "danger").

Definition loadAlerts : Eff Page unit :=
  try_catch
    (data ← fetch (getAlerts apiService); on_view (set_alerts data))
    (fun _ => showToast "Failed to load alerts" "danger").

(** The [limitsArray] and [payload] of [createSensor]. *)
Definition limit_payload (limit : LimitForm) : Limit :=
  {| l_name := name limit;
     l_upper_limit := Number (upper_limit limit);
     l_lower_limit := Number (lower_limit limit);
     l_unit := unit' limit;
     l_is_selected := is_selected limit |}.

Definition create_payload (n : NewSensor) : SensorPayload :=
  {| p_sensor_id := sensorId n;
     p_pattern := n_pattern n;
     p_sensor_type := sensorType n;
     p_is_active := n_is_active n;
     p_limits := map limit_payload (n_limits n) |}.

(** [createSensor()]. *)
Definition createSensor : Eff Page unit :=
  try_catch
    (reading (fun p =>
       if Nat.ltb 1 (addSelectedLimitsCount (view p)) then
         on_view (set_addError "You cannot select more than 1 limit.")
       else
         request (addSensor apiService (create_payload (newSensor (view p))));;
         on_view (set_newSensor blank_sensor);;
         loadSensors;;
         loadSSInfo;;
         showToast "Sensor created successfully" "success"))
    (fun _ => showToast "Failed to create sensor" "danger").

(** The [cleanPayload] of [updateSensor]. *)
Definition update_payload (e : EditingSensor) : UpdatePayload :=
  {| u_pattern := e_pattern e;
     u_sensor_type := e_sensor_type e;
     u_is_active := e_is_active e;
     u_limits := e_limits e |}.

(** [updateSensor()]; reading a field of [editingSensor.value] throws
    when it is [null]. *)
Definition updateSensor_view : Eff Page unit :=
  try_catch
    (reading (fun p =>
       if Nat.ltb 1 (editSelectedLimitsCount (view p)) then
         on_view (set_updateError "You cannot select more than 1 limit.")
       else
         match editingSensor (view p) with
         | None => throw (VStr "TypeError")
         | Some e =>
             request (updateSensor apiService (e_sensor_id e) (update_payload e));;
             on_view (set_showEditModal false);;
             on_view (set_editingSensor None);;
             loadSensors;;
             showToast "Sensor updated successfully" "success"
         end))
    (fun _ => showToast "Failed to update sensor" "danger").

(** [resolveAlert(alert)]. The test [response.data = true] is an
    assignment and always holds. *)
Definition resolveAlert_view (alert : Alert) : Eff Page unit :=
  try_catch
    (if is_resolved alert then ret tt
     else
       _ ← request (resolveAlert apiService (id alert));
       loadSensors;;
       loadAlerts)
    (fun _ => on_view (set_resolveError "Failed to resolve alert")).

(** [revertAlert(alert)]. *)
Definition revertAlert_view (alert : Alert) : Eff Page unit :=
  try_catch
    (if negb (is_resolved alert) then ret tt
     else
       _ ← request (revertAlert apiService (id alert));
       loadSensors;;
       loadAlerts)
    (fun _ => on_view (set_resolveError "Failed to resolve alert")).

End ViewMethods.

Arguments mkPage {Server}.
Arguments view {Server}.
Arguments server {Server}.

(** A server that only records the write requests it receives. *)
Inductive WireRequest : Type :=
| PostSensor (payload : SensorPayload)
| PutSensor (sensor_id : string) (payload : UpdatePayload)
| PostResolve (alert_id : nat)
| PostRevert (alert_id : nat).

Definition wire_api : Api (list WireRequest) :=
  {| addSensor := fun payload => modify (fun l => l ++ [PostSensor payload]);
     updateSensor := fun i payload => modify (fun l => l ++ [PutSensor i payload]);
     getAllSensors := fun _ _ => Normal [];
     getSSInfo := fun _ => Normal VNull;
     getAlerts := fun _ => Normal [];
     resolveAlert := fun i l => (Normal (VBool true), l ++ [PostResolve i]);
     revertAlert := fun i l => (Normal (VBool true), l ++ [PostRevert i]) |}.

End SSManagement.

(* ===================================================================== *)
(** ** The relay core behind the REST interface

    The server that answers [/api/acl/check], [/api/ss/check] and
    [/api/ss/alerts/:id/resolve|revert] is not among the sources; the
    views only call it. Its three components are written here from
    their specification. *)
(* ===================================================================== *)

Module Backend.

(** *** Alert Lifecycle Manager *)

Import SSManagement.

Inductive Transition : Type := Resolved | Reverted.

(** Modelled from the spec: the alert store of the Alert Lifecycle
    Manager with its audit trail (the server code is missing). Every
    transition is recorded with its time. *)
Record AlertStore : Type := mkAlertStore {
  stored_alerts : list Alert;
  audit_trail : list (nat * Transition * string)
}.

Inductive Outcome : Type :=
| Done (now : Alert)
| Rejected (current : Alert)
| NotFound.

Definition set_resolution (r : bool) (at_ : option string) (a : Alert) : Alert :=
  mkAlert (id a) (sensor_id a) (alert_type a) (message a) (triggered_value a)
    (limit_value a) (a_unit a) (mqtt_topic a) (triggered_at a) r at_.

Definition find_alert (alert_id : nat) (l : list Alert) : option Alert :=
  List.find (fun a => Nat.eqb (id a) alert_id) l.

Definition replace_alert (a' : Alert) (l : list Alert) : list Alert :=
  map (fun a => if Nat.eqb (id a) (id a') then a' else a) l.

(** Modelled from the spec: [resolve(alert_id)] of the Alert Lifecycle
    Manager (the server code is missing). Triggered -> Resolved sets
    [resolved_at = now]; an already resolved alert is rejected: a no-op
    that returns the current state. *)
Definition resolve (now : string) (alert_id : nat) (s : AlertStore)
  : Outcome * AlertStore :=
  match find_alert alert_id (stored_alerts s) with
  | None => (NotFound, s)
  | Some a =>
      if is_resolved a then (Rejected a, s)
      else
        let a' := set_resolution true (Some now) a in
        (Done a',
         mkAlertStore (replace_alert a' (stored_alerts s))
           (audit_trail s ++ [(alert_id, Resolved, now)]))
  end.

(** Modelled from the spec: [revert(alert_id)] of the Alert Lifecycle
    Manager (the server code is missing). Resolved -> Triggered clears
    [resolved_at]; a currently unresolved alert is rejected. *)
Definition revert (now : string) (alert_id : nat) (s : AlertStore)
  : Outcome * AlertStore :=
  match find_alert alert_id (stored_alerts s) with
  | None => (NotFound, s)
  | Some a =>
      if is_resolved a then
        let a' := set_resolution false None a in
        (Done a',
         mkAlertStore (replace_alert a' (stored_alerts s))
           (audit_trail s ++ [(alert_id, Reverted, now)]))
      else (Rejected a, s)
  end.

(** *** Sensor Limit Evaluator *)













End Backend.

Module Acl.

(** *** ACL Evaluator *)

Inductive Action : Type := publish | subscribe.

#[export] Instance Action_eq_dec : EqDecision Action.
Proof. solve_decision. Defined.

Inductive Policy : Type := default_allow | default_deny_policy.

Inductive Reason : Type := no_matching_rule | explicit_deny | default_deny.

Inductive Decision : Type :=
| Allowed
| Denied (reason : Reason).

(** Modelled from the spec: the Permission Rule, Role and Principal of
    the data model (the server code is missing). *)
Record Rule : Type := mkRule {
  pattern : string;
  allow : list Action;
  deny : list Action
}.

Record Role : Type := mkRole {
  role_name : string;
  description : string;
  rules : list Rule
}.

Record User : Type := mkUser {
  user_id : string;
  roles : list string;
  custom_permissions : list Rule
}.

(** The rule snapshot the evaluator reads. *)
Record Snapshot : Type := mkSnapshot {
  users : list User;
  role_defs : list Role;
  default_policy : Policy
}.

(** The levels of a slash-delimited topic or pattern. *)
Fixpoint levels_from (cur s : string) : list string :=
  match s with
  | EmptyString => [cur]
  | String c s' =>
      if Ascii.eqb c "/"%char then cur :: levels_from "" s'
      else levels_from (cur +:+ String c "") s'
  end.

Definition levels (s : string) : list string := levels_from "" s.

Definition is_wildcard (level : string) : bool :=
  String.eqb level "+" || String.eqb level "#".

(** Modelled from the spec: MQTT wildcard matching (the server code is
    missing). [+] matches exactly one level; [#] matches all remaining
    levels and must be the final token. *)
Fixpoint matches_levels (pat topic : list string) : bool :=
  match pat with
  | [] => match topic with [] => true | _ => false end
  | p :: pat' =>
      if String.eqb p "#" then
        match pat' with [] => true | _ => false end
      else
        match topic with
        | [] => false
        | t :: topic' =>
            (String.eqb p "+" || String.eqb p t) && matches_levels pat' topic'
        end
  end.

Definition matches (pat topic : string) : bool :=
  matches_levels (levels pat) (levels topic).

(** The two measures of specificity: the number of wildcard tokens and
    the length of the literal prefix. *)
Definition wildcard_count (pat : string) : nat :=
  length (List.filter is_wildcard (levels pat)).

Fixpoint literal_run (l : list string) : nat :=
  match l with
  | [] => 0
  | x :: l' => if is_wildcard x then 0 else S (literal_run l')
  end.

Definition literal_prefix (pat : string) : nat := literal_run (levels pat).

(** Fewest wildcard tokens first, then longest literal prefix. *)
Definition more_specific (a b : Rule) : bool :=
  Nat.ltb (wildcard_count (pattern a)) (wildcard_count (pattern b))
  || (Nat.eqb (wildcard_count (pattern a)) (wildcard_count (pattern b))
      && Nat.ltb (literal_prefix (pattern b)) (literal_prefix (pattern a))).

Definition same_specificity (a b : Rule) : bool :=
  Nat.eqb (wildcard_count (pattern a)) (wildcard_count (pattern b))
  && Nat.eqb (literal_prefix (pattern a)) (literal_prefix (pattern b)).

Definition denies (action : Action) (r : Rule) : bool :=
  bool_decide (action ∈ deny r).

Definition allows (action : Action) (r : Rule) : bool :=
  bool_decide (action ∈ allow r).

(** Whether candidate [c] replaces the best rule so far [b]: it is more
    specific, or as specific and a deny where [b] is not. *)
Definition beats (action : Action) (c b : Rule) : bool :=
  more_specific c b
  || (same_specificity c b && denies action c && negb (denies action b)).

Definition pick (action : Action) (best : option Rule) (c : Rule)
  : option Rule :=
  match best with
  | None => Some c
  | Some b => if beats action c b then Some c else Some b
  end.

(** Modelled from the spec: the effective rule among the matching ones
    (the server code is missing): the most specific; on a tie a deny on
    the action beats an allow. *)
Definition effective_rule (action : Action) (matching : list Rule)
  : option Rule :=
  fold_left (pick action) matching None.

Definition find_role (n : string) (l : list Role) : option Role :=
  List.find (fun r => String.eqb (role_name r) n) l.

Definition find_user (u : string) (l : list User) : option User :=
  List.find (fun x => String.eqb (user_id x) u) l.

(** The union of the rules of the user's roles and the user's custom
    permissions. *)
Definition rules_of (s : Snapshot) (u : string) : list Rule :=
  match find_user u (users s) with
  | None => []
  | Some x =>
      concat (map (fun n => match find_role n (role_defs s) with
                            | Some r => rules r
                            | None => []
                            end) (roles x))
      ++ custom_permissions x
  end.

Definition matching_rules (s : Snapshot) (u topic : string) : list Rule :=
  List.filter (fun r => matches (pattern r) topic) (rules_of s u).

(** Modelled from the spec: the decision of [authorize] (the server
    code is missing). A rule that matches the topic and says nothing of
    the action leaves the decision to the default policy, as does the
    absence of any matching rule. *)
Definition decide_access (s : Snapshot) (u topic : string) (action : Action)
  : Decision :=
  match effective_rule action (matching_rules s u topic) with
  | None =>
      match default_policy s with
      | default_allow => Allowed
      | default_deny_policy => Denied default_deny
      end
  | Some r =>
      if denies action r then Denied explicit_deny
      else if allows action r then Allowed
      else
        match default_policy s with
        | default_allow => Allowed
        | default_deny_policy => Denied no_matching_rule
        end
  end.

(** [x] does not displace [r]: it is not more specific, and if it is as
    specific and denies the action then so does [r]. *)
Definition yields_to (action : Action) (x r : Rule) : Prop :=
  more_specific x r = false
  /\ (same_specificity x r = true -> denies action x = true ->
      denies action r = true).

(** The rules of the tie-break scenario and of the viewer scenario. *)
Definition allow_any_device : Rule :=
  mkRule "sf/sensors/+/temperature" [publish] [].

Definition deny_device1 : Rule :=
  mkRule "sf/sensors/device1/temperature" [] [publish].

Definition allow_device1 : Rule :=
  mkRule "sf/sensors/device1/temperature" [publish] [].

Definition viewer : Role :=
  mkRole "viewer" "read only" [mkRule "sf/sensors/#" [subscribe] []].

Definition operator_first : Snapshot :=
  mkSnapshot [mkUser "alice" [] [allow_any_device; deny_device1]] []
    default_allow.

Definition operator_last : Snapshot :=
  mkSnapshot [mkUser "alice" [] [deny_device1; allow_any_device]] []
    default_allow.

Definition bob_snapshot : Snapshot :=
  mkSnapshot [mkUser "bob" ["viewer"] []] [viewer] default_deny_policy.

End Acl.

(* ===================================================================== *)
(** ** What the proofs observe *)
(* ===================================================================== *)

Module Observations.

Import WebSocketService.

(** The handlers registered for a message type; none when the map has no
    entry. *)
Definition registered (w : World) (type : string) : list Handler :=
  default [] (messageHandlers (this w) !! type).

(** The state of the views after each handler of the list has been
    called in turn, whether a call returned or threw. *)
Definition run_all (handlers : list Handler) (data : JsVal) (a : JsVal)
  : JsVal :=
  fold_left (fun a h => snd (run h data a)) handlers a.

(** The exceptions thrown along the way, in order. *)
Fixpoint thrown_by (handlers : list Handler) (data : JsVal) (a : JsVal)
  : list JsVal :=
  match handlers with
  | [] => []
  | h :: hs =>
      match run h data a with
      | (Throw e, a') => e :: thrown_by hs data a'
      | (Normal _, a') => thrown_by hs data a'
      end
  end.

(** Every frame that has been handed to the network. *)
Definition transmitted (w : World) : list Frame :=
  concat (map sent (heap w)).

(** The console with one more entry. *)
Definition logged (e : LogEntry) (w : World) : World :=
  mkWorld (this w) (heap w) (timers w) (console w ++ [e]) (app w).

(** The frame [send] hands to the socket, when the message can be
    serialised. *)
Definition frame_of (message : JsVal) : option Frame :=
  match message with
  | VStr s => Some (FText s)
  | _ => if has_bigint message then None else Some (FJson message)
  end.

(** The page after the current socket has taken one more frame. *)
Definition transmit (f : Frame) (w : World) : World :=
  match ws (this w) with
  | Some i =>
      match heap w !! i with
      | Some sk =>
          mkWorld (this w)
            (<[i := mkSocket (sock_url sk) (opened_as sk) OPEN (sent sk ++ [f])]>
               (heap w))
            (timers w) (console w) (app w)
      | None => w
      end
  | None => w
  end.

(** What the console shows of reconnections. *)
Definition reconnect_log (w : World) : list LogEntry :=
  List.filter reconnect_activity (console w).

(** The manually-disconnected flag is set. *)
Definition disconnected (w : World) : Prop :=
  isManuallyDisconnected (this w) = true.

(** From [w] to [w'] the flag stays set and no reconnection was
    scheduled or attempted: the console shows none, no socket was created
    and no timer was added. *)
Record quiet_rel (w w' : World) : Prop := mk_quiet {
  quiet_flag : disconnected w';
  quiet_max : maxReconnectAttempts (this w') = maxReconnectAttempts (this w);
  quiet_log : reconnect_log w' = reconnect_log w;
  quiet_heap : length (heap w') = length (heap w);
  quiet_timers : length (timers w') <= length (timers w)
}.

(** A computation that schedules and attempts no reconnection when it
    starts with the flag set. *)
Definition Quiet {A} (m : Eff World A) : Prop :=
  forall w, disconnected w -> quiet_rel w (snd (m w)).

(** The delay [scheduleReconnect] computes from the state it is called
    in: [reconnectDelay * 2 ^ attempts], at most 30 s. *)
Definition backoff (w : World) : Z :=
  Z.min (reconnectDelay (this w) * 2 ^ Z.of_nat (reconnectAttempts (this w)))
    30000.

(** No event of the list is an explicit call of [connect]. *)
Definition no_connect_call (es : list Event) : bool :=
  forallb (fun e => negb (is_connect_call e)) es.

(** A page whose connection was established and then lost: the close
    handler has scheduled the first reconnect. *)
Definition dropped_world : World :=
  run_events (fun _ => true) initial_world
    [CallConnect "ws://localhost:8000/ws/ws" "erkam"; SocketOpen 0;
     SocketClose 0 1006 ""].

(** A handler that throws, and one that records that it ran. *)
Definition failing_handler : Handler :=
  mkHandler 0 (fun _ => throw (VStr "boom")).

Definition marking_handler : Handler :=
  mkHandler 1 (fun data => modify (fun _ => data)).

Definition two_handlers : World :=
  mkWorld
    (set_messageHandlers {["sensor_data" := [failing_handler; marking_handler]]}
       constructor)
    [] [] [] VUndefined.

(** A page with one open socket. *)
Definition connected_world : World :=
  mkWorld (set_ws (Some 0) constructor)
    [mkSocket "ws://localhost:8000/ws/ws?user_id=erkam" "erkam" OPEN []]
    [] [] VUndefined.

End Observations.

(* ===================================================================== *)
(** ** The messages of the relay protocol *)
(* ===================================================================== *)

Module Protocol.

Import WebSocketService.

(** The [type] field of an envelope, when it is a string. *)
Definition type_of (m : JsVal) : option string :=
  match get "type" m with
  | VStr t => Some t
  | _ => None
  end.

(** Every place of the sources that hands a message to [send]: the
    methods of the service in its two versions and the functions of the
    dashboard. *)
Inductive SendSite : Type :=
| SubscribeMQTT (topics qos : JsVal)
| UnsubscribeMQTT (topics : JsVal)
| PublishMQTT (topic payload qos retain : JsVal)
| GetMQTTStatus
| GetAllUsers
| Ping (now_iso : string)
| LegacySubscribe (topics : JsVal)
| LegacyRequestStatus
| LegacyOnOpen (now_iso : string)
| RequestSystemStatus (v : Dashboard.View)
| RequestUsersList (v : Dashboard.View)
| RequestSystemInfo (v : Dashboard.View)
| ReloadConfigurations (v : Dashboard.View).

(** The messages a call at that place passes to [send], in order. *)
Definition messages_of (site : SendSite) : list JsVal :=
  match site with
  | SubscribeMQTT topics qos => [subscribe_message topics qos]
  | UnsubscribeMQTT topics => [unsubscribe_message topics]
  | PublishMQTT topic payload qos retain =>
      [publish_message topic payload qos retain]
  | GetMQTTStatus => [get_status_message]
  | GetAllUsers => [get_all_users_message]
  | Ping now_iso => [ping_message now_iso]
  | LegacySubscribe topics => [LegacyService.subscribe_message topics]
  | LegacyRequestStatus => [get_status_message]
  | LegacyOnOpen now_iso => [ping_message now_iso]
  | RequestSystemStatus v => Dashboard.requestSystemStatus v
  | RequestUsersList v => Dashboard.requestUsersList v
  | RequestSystemInfo v => Dashboard.requestSystemInfo v
  | ReloadConfigurations v => Dashboard.reloadConfigurations v
  end.

(** A message type is consumed when the [switch] of [handleMessage] has
    a case for it or a view registers a handler for it. *)
Definition consumes (t : string) : bool :=
  bool_decide (t ∈ switch_cases)
  || bool_decide (t ∈ Dashboard.registered_types)
  || bool_decide (t ∈ DeviceDetails.registered_types).

(** The two sets as the interface description lists them. *)
Definition spec_client_types : list string :=
  ["subscribe"; "unsubscribe"; "publish"; "get_status"; "ping"].

Definition spec_server_types : list string :=
  ["sensor_data"; "publish_ack"; "subscription_ack"; "unsubscription_ack";
   "permission_revoked"; "system_alert"; "mqtt_status"; "pong"].

(** The two sets as the sources have them. *)
Definition sent_types : list string :=
  spec_client_types
  ++ ["get_all_users"; "get_system_info"; "reload_acl"; "reload_ss"].

Definition consumed_types : list string :=
  spec_server_types
  ++ ["connection_status"; "device_status"; "mqtt_publish"; "users_list";
      "status"; "system_info"].

End Protocol.


(* ===================================================================== *)
(** ** Sample states *)
(* ===================================================================== *)

Module Samples.

Import Dashboard.

Definition noon : Clock :=
  mkClock (3400000000001 # 2) "2025-01-01T12:00:00.000Z".

(** A dashboard whose alert buffer and reading buffer are full. *)
Definition full_view : View :=
  mkView true [] (replicate 50 VNull) (replicate 20 VNull) [].

Definition critical_alert : JsVal :=
  VObj [("type", VStr "system_alert"); ("level", VStr "critical");
        ("message", VStr "overheating")].

Definition temperature_reading : JsVal :=
  VObj [("type", VStr "sensor_data");
        ("topic", VStr "sf/sensors/device1/temperature");
        ("data", VObj [("device_id", VStr "device1");
                       ("sensor_type", VStr "temperature");
                       ("value", VNum 35); ("unit", VStr "C")])].

(** Forms of the sensor view: two limits selected, and none. *)
Definition two_selected : SSManagement.NewSensor :=
  SSManagement.mkNewSensor "temp01" "sf/sensors/+/temperature" "temperature"
    true
    [SSManagement.mkLimitForm "day" (SSManagement.Typed 30)
       (SSManagement.Typed 10) "C" true;
     SSManagement.mkLimitForm "night" (SSManagement.Typed 25)
       (SSManagement.Typed 5) "C" true].

Definition none_selected : SSManagement.NewSensor :=
  SSManagement.mkNewSensor "temp01" "sf/sensors/+/temperature" "temperature"
    true
    [SSManagement.mkLimitForm "day" (SSManagement.Typed 30)
       (SSManagement.Typed 10) "C" false].

Definition fresh_view (n : SSManagement.NewSensor) : SSManagement.View :=
  SSManagement.mkView n None false [] [] VNull "" "" "" [].

(** An alert of sensor [temp01], unresolved and resolved. *)
Definition open_alert : SSManagement.Alert :=
  SSManagement.mkAlert 7 "temp01" "upper_breach" "temperature above limit"
    35 30 "C" "sf/sensors/temp01/temperature" "2025-01-01T12:00:00.000Z"
    false None.

Definition closed_alert : SSManagement.Alert :=
  SSManagement.mkAlert 7 "temp01" "upper_breach" "temperature above limit"
    35 30 "C" "sf/sensors/temp01/temperature" "2025-01-01T12:00:00.000Z"
    true (Some "2025-01-01T12:30:00.000Z").



(** An alert of level [error] whose message is an object with an own
    [toString] property. *)
Definition untextable_alert : JsVal :=
  VObj [("type", VStr "system_alert"); ("level", VStr "error");
        ("message", VObj [("toString", VNum 1)])].

End Samples.

(* ===================================================================== *)
(** ** Properties of the WebSocket service *)
(* ===================================================================== *)

Import WebSocketService Observations.

Lemma forEach_guarded_normal (type : string) (data : JsVal)
  (handlers : list Handler) (w : World) :
  forEach handlers
    (fun handler =>
       try_catch (call_handler handler data)
         (fun error => log (ErrHandler type error))) w
  = (Normal tt,
     mkWorld (this w) (heap w) (timers w)
       (console w ++ map (ErrHandler type) (thrown_by handlers data (app w)))
       (run_all handlers data (app w))).
Proof.
  revert w. induction handlers as [|h hs IH]; intros w.
  - simpl. unfold ret. rewrite app_nil_r. by destruct w.
  - cbn [forEach thrown_by].
    unfold bind at 1, try_catch at 1, call_handler at 1.
    unfold run_all. cbn [fold_left].
    destruct (run h data (app w)) as [[u|e] a'] eqn:Hrun; cbn [fst snd].
    + rewrite IH. reflexivity.
    + unfold log, modify. cbn [fst snd]. rewrite IH. cbn.
      by rewrite <- app_assoc.
Qed.

Lemma notifyHandlers_result (type : string) (data : JsVal) (w : World) :
  notifyHandlers type data w
  = (Normal tt,
     mkWorld (this w) (heap w) (timers w)
       (console w
          ++ map (ErrHandler type) (thrown_by (registered w type) data (app w)))
       (run_all (registered w type) data (app w))).
Proof.
  unfold notifyHandlers, registered.
  destruct (messageHandlers (this w) !! type) as [handlers|]; simpl.
  - apply forEach_guarded_normal.
  - unfold ret. rewrite app_nil_r. by destruct w.
Qed.

Lemma run_all_app (pre post : list Handler) (data a : JsVal) :
  run_all (pre ++ post) data a = run_all post data (run_all pre data a).
Proof. unfold run_all. apply fold_left_app. Qed.

(** Without the [try]/[catch] around each call the first exception would
    end the loop: the second handler would not run. *)
Example unguarded_forEach_aborts :
  forEach [failing_handler; marking_handler]
    (fun handler => call_handler handler (VStr "reading")) two_handlers
  = (Throw (VStr "boom"), two_handlers).
Proof. reflexivity. Qed.

(** C7. Dispatch isolates the handlers from one another: whatever the
    handlers registered for a type do, [notifyHandlers] completes
    normally, every handler of the list has been called in turn on the
    state its predecessor left, a throwing one included, each exception
    is reported on the console and nothing else of the page changes. In
    particular the handlers that follow a throwing handler still run. *)
Theorem notifyHandlers_isolates_handlers (type : string) (data : JsVal)
  (w : World) :
  let r := notifyHandlers type data w in
  fst r = Normal tt
  /\ app (snd r) = run_all (registered w type) data (app w)
  /\ console (snd r)
     = console w
       ++ map (ErrHandler type) (thrown_by (registered w type) data (app w))
  /\ this (snd r) = this w
  /\ heap (snd r) = heap w
  /\ timers (snd r) = timers w
  /\ (forall pre h post e a',
        registered w type = pre ++ h :: post ->
        run h data (run_all pre data (app w)) = (Throw e, a') ->
        app (snd r) = run_all post data a').
Proof.
  simpl. rewrite notifyHandlers_result. simpl.
  repeat split; try reflexivity.
  intros pre h post e a' Hreg Hthrow.
  rewrite Hreg, run_all_app. unfold run_all at 1. simpl.
  fold (run_all pre data (app w)). by rewrite Hthrow.
Qed.

Lemma notifyHandlers_isolates_handlers_witness :
  fst (notifyHandlers "sensor_data" (VStr "reading") two_handlers) = Normal tt
  /\ app (snd (notifyHandlers "sensor_data" (VStr "reading") two_handlers))
     = VStr "reading".
Proof.
  pose proof (notifyHandlers_isolates_handlers "sensor_data" (VStr "reading")
                two_handlers) as H.
  simpl in H. destruct H as (Hn & _ & _ & _ & _ & _ & Hrest).
  split; [exact Hn|].
  apply (Hrest [] failing_handler [marking_handler] (VStr "boom") VUndefined);
    reflexivity.
Defined.

Lemma stringify_frame_of (message : JsVal) (w : World) :
  stringify message w
  = match frame_of message with
    | Some f => (Normal f, w)
    | None => (Throw (VStr "TypeError"), w)
    end.
Proof.
  unfold stringify, frame_of.
  destruct message; try reflexivity;
    match goal with |- context [has_bigint ?m] => destruct (has_bigint m) end;
    reflexivity.
Qed.

Lemma send_result (message : JsVal) (w : World) :
  send message w
  = (Normal tt,
     if ws_is_open w then
       match frame_of message with
       | Some f => logged (LogSent message) (transmit f w)
       | None => logged (ErrSending (VStr "TypeError")) w
       end
     else logged (WarnNotConnected message) w).
Proof.
  unfold send. destruct (ws_is_open w) eqn:Hopen; [|reflexivity].
  unfold try_catch, mbind, eff_bind, bind. rewrite stringify_frame_of.
  destruct (frame_of message) as [f|]; [|reflexivity].
  unfold ws_is_open in Hopen. unfold transmit.
  destruct (ws (this w)) as [i|]; [|discriminate].
  unfold socket_send.
  destruct (heap w !! i) as [sk|] eqn:Hsk; [|discriminate].
  apply bool_decide_eq_true in Hopen. rewrite Hopen. reflexivity.
Qed.

(** C8. [send] never throws. When the current socket is absent or not
    OPEN the call only adds a warning to the console: nothing is handed
    to the network and no other part of the page changes. A frame is
    transmitted only when the socket is OPEN, and then it is the
    serialised message, on the current socket. The text of [send] is the
    same in both versions of the service. *)
Theorem send_never_throws (message : JsVal) (w : World) :
  let r := send message w in
  fst r = Normal tt
  /\ (ws_is_open w = false ->
      snd r = logged (WarnNotConnected message) w
      /\ transmitted (snd r) = transmitted w)
  /\ (transmitted (snd r) <> transmitted w -> ws_is_open w = true)
  /\ (ws_is_open w = true ->
      forall f, frame_of message = Some f ->
      snd r = logged (LogSent message) (transmit f w)).
Proof.
  cbv zeta. rewrite send_result. cbn [fst snd].
  split; [reflexivity|]. split; [|split].
  - intros ->. split; reflexivity.
  - destruct (ws_is_open w); [reflexivity|].
    intros H. exfalso. apply H. reflexivity.
  - intros -> f ->. reflexivity.
Qed.

Lemma send_never_throws_witness :
  snd (send get_status_message initial_world)
  = logged (WarnNotConnected get_status_message) initial_world
  /\ transmitted (snd (send get_status_message connected_world))
     = [FJson get_status_message].
Proof.
  pose proof (send_never_throws get_status_message initial_world) as Hclosed.
  pose proof (send_never_throws get_status_message connected_world) as Hopen.
  cbv zeta in Hclosed, Hopen.
  destruct Hclosed as (_ & Hwarn & _).
  destruct Hopen as (_ & _ & _ & Hsent).
  split.
  - apply Hwarn. reflexivity.
  - rewrite (Hsent eq_refl (FJson get_status_message) eq_refl). reflexivity.
Defined.

Lemma quiet_rel_refl w : disconnected w -> quiet_rel w w.
Proof. intros H. by split. Qed.

Lemma quiet_rel_trans w1 w2 w3 :
  quiet_rel w1 w2 -> quiet_rel w2 w3 -> quiet_rel w1 w3.
Proof.
  intros [f1 m1 l1 h1 t1] [f2 m2 l2 h2 t2]. split; try congruence.
  lia.
Qed.

Lemma quiet_ret {A} (a : A) : Quiet (ret a).
Proof. intros w H. by apply quiet_rel_refl. Qed.

Lemma quiet_throw {A} (e : JsVal) : Quiet (@throw World A e).
Proof. intros w H. by apply quiet_rel_refl. Qed.

Lemma quiet_bind {A B} (m : Eff World A) (k : A -> Eff World B) :
  Quiet m -> (forall a, Quiet (k a)) -> Quiet (mbind k m).
Proof.
  intros Hm Hk w H. unfold mbind, eff_bind, bind.
  specialize (Hm w H). destruct (m w) as [[a|e] w1]; simpl in *.
  - eapply quiet_rel_trans; [exact Hm|]. apply Hk. apply Hm.
  - exact Hm.
Qed.

Lemma quiet_try_catch {A} (body : Eff World A) (h : JsVal -> Eff World A) :
  Quiet body -> (forall e, Quiet (h e)) -> Quiet (try_catch body h).
Proof.
  intros Hm Hk w H. unfold try_catch.
  specialize (Hm w H). destruct (body w) as [[a|e] w1]; simpl in *.
  - exact Hm.
  - eapply quiet_rel_trans; [exact Hm|]. apply Hk. apply Hm.
Qed.

Lemma quiet_reading {A} (k : World -> Eff World A) :
  (forall s, disconnected s -> Quiet (k s)) -> Quiet (reading k).
Proof. intros Hk w H. unfold reading. by apply Hk. Qed.

Lemma quiet_log_entry (e : LogEntry) :
  reconnect_activity e = false -> Quiet (log e).
Proof.
  intros He w H. split; try done.
  unfold reconnect_log. simpl. rewrite List.filter_app. simpl. rewrite He.
  by rewrite app_nil_r.
Qed.

Lemma quiet_on_this (f : Service -> Service) :
  (forall s, isManuallyDisconnected s = true ->
             isManuallyDisconnected (f s) = true
             /\ maxReconnectAttempts (f s) = maxReconnectAttempts s) ->
  Quiet (on_this f).
Proof. intros Hf w H. destruct (Hf _ H). by split. Qed.

Lemma quiet_on_heap (f : list Socket -> list Socket) :
  (forall h, length (f h) = length h) -> Quiet (on_heap f).
Proof. intros Hf w H. split; try done. apply Hf. Qed.

Lemma quiet_on_timers (f : list Z -> list Z) :
  (forall t, length (f t) <= length t) -> Quiet (on_timers f).
Proof. intros Hf w H. split; try done. apply Hf. Qed.

Lemma quiet_notifyHandlers type data : Quiet (notifyHandlers type data).
Proof.
  intros w H. rewrite notifyHandlers_result. split; try done.
  unfold reconnect_log. simpl. rewrite List.filter_app.
  replace (List.filter reconnect_activity (map (ErrHandler type) _)) with (@nil LogEntry).
  - by rewrite app_nil_r.
  - generalize (thrown_by (registered w type) data (app w)). intros l.
    induction l; simpl; auto.
Qed.

Lemma quiet_send message : Quiet (send message).
Proof.
  intros w H. rewrite send_result. simpl.
  destruct (ws_is_open w).
  - destruct (frame_of message).
    + eapply quiet_rel_trans with (transmit f w).
      * unfold transmit. destruct (ws (this w)); [|by apply quiet_rel_refl].
        destruct (heap w !! n); [|by apply quiet_rel_refl].
        split; try done. simpl. by rewrite length_insert.
      * apply (quiet_log_entry (LogSent message) eq_refl).
        unfold transmit. destruct (ws (this w)); [|done].
        by destruct (heap w !! n).
    + by apply (quiet_log_entry (ErrSending _) eq_refl).
  - by apply (quiet_log_entry (WarnNotConnected _) eq_refl).
Qed.

Ltac quiet_step :=
  lazymatch goal with
  | |- Quiet (mbind _ _) => apply quiet_bind; [|intros ?]
  | |- Quiet (try_catch _ _) => apply quiet_try_catch; [|intros ?]
  | |- Quiet (reading _) => apply quiet_reading; intros ? ?
  | |- Quiet (log _) => apply quiet_log_entry; reflexivity
  | |- Quiet (on_this _) =>
      apply quiet_on_this; intros ? ?; split; (reflexivity || assumption)
  | |- Quiet (ret _) => apply quiet_ret
  | |- Quiet (throw _) => apply quiet_throw
  | |- Quiet (notifyHandlers _ _) => apply quiet_notifyHandlers
  | |- Quiet (send _) => apply quiet_send
  end.

Ltac quiet := repeat quiet_step.

Lemma quiet_handleMessage message : Quiet (handleMessage message).
Proof.
  unfold handleMessage.
  destruct message; quiet;
    repeat match goal with
    | |- Quiet (if ?c then _ else _) => destruct c
    | |- Quiet (match ?v with _ => _ end) => destruct v
    end; quiet.
Qed.

Lemma quiet_onmessage parsed : Quiet (onmessage parsed).
Proof.
  unfold onmessage. quiet. destruct parsed; quiet. apply quiet_handleMessage.
Qed.

Lemma quiet_onopen userId : Quiet (onopen userId).
Proof. unfold onopen. quiet. Qed.

Lemma quiet_onerror error : Quiet (onerror error).
Proof. unfold onerror. quiet. Qed.

Lemma quiet_onclose code reason : Quiet (onclose code reason).
Proof.
  unfold onclose. quiet.
  match goal with H : disconnected _ |- _ => rewrite H end. simpl. quiet.
Qed.

Lemma quiet_reconnect_callback url_parses : Quiet (reconnect_callback url_parses).
Proof.
  intros w H. unfold reconnect_callback.
  destruct (currentUrl (this w)), (currentUserId (this w));
    try (by apply quiet_rel_refl).
  rewrite H. simpl. by apply quiet_rel_refl.
Qed.

Lemma quiet_socket_close i : Quiet (socket_close i).
Proof.
  unfold socket_close. apply quiet_on_heap. intros h.
  destruct (h !! i) as [sk|]; [|done].
  destruct (readyState sk); by rewrite ?length_insert.
Qed.

Lemma quiet_disconnect : Quiet disconnect.
Proof.
  unfold disconnect. quiet.
  destruct (ws (this s)); quiet. apply quiet_socket_close.
Qed.

Lemma quiet_on t h : Quiet (on t h).
Proof. unfold on. quiet. Qed.

Lemma quiet_off t h : Quiet (off t h).
Proof.
  unfold off. apply quiet_on_this. intros s Hs.
  destruct (messageHandlers s !! t); [|done].
  by destruct (remove_first (hid h) l).
Qed.

Lemma quiet_socket_event i r callback :
  (forall u, Quiet (callback u)) -> Quiet (socket_event i r callback).
Proof.
  intros Hc w H. unfold socket_event.
  destruct (heap w !! i) as [sk|]; [|by apply quiet_rel_refl].
  revert w H. change (Quiet (on_heap
           (λ h : list Socket,
              match r with
              | Some r' => <[i:=set_readyState r' sk]> h
              | None => h
              end);; callback (opened_as sk))).
  quiet; [|apply Hc].
  apply quiet_on_heap. intros h. destruct r; by rewrite ?length_insert.
Qed.

Lemma delete_no_longer {A} (k : nat) (l : list A) :
  length (delete k l) <= length l.
Proof.
  revert k. induction l as [|x l IH]; intros [|k]; simpl; try lia.
  specialize (IH k). lia.
Qed.

Lemma quiet_dispatch url_parses e :
  is_connect_call e = false -> Quiet (dispatch url_parses e).
Proof.
  destruct e; simpl; try discriminate; intros _.
  - apply quiet_disconnect.
  - apply quiet_send.
  - apply quiet_on.
  - apply quiet_off.
  - apply quiet_socket_event. apply quiet_onopen.
  - apply quiet_socket_event. intros _. apply quiet_onmessage.
  - apply quiet_socket_event. intros _. apply quiet_onclose.
  - apply quiet_socket_event. intros _. apply quiet_onerror.
  - intros w H. destruct (timers w !! k) eqn:Hk; [|by apply quiet_rel_refl].
    revert w H Hk. 
    assert (Quiet (on_timers (delete k);; reconnect_callback url_parses)) as HQ.
    { quiet; [|apply quiet_reconnect_callback].
      apply quiet_on_timers. intros t. apply delete_no_longer. }
    intros w H _. by apply HQ.
Qed.

Lemma quiet_run_events url_parses es w :
  no_connect_call es = true ->
  disconnected w ->
  quiet_rel w (run_events url_parses w es).
Proof.
  revert w. induction es as [|e es IH]; intros w Hes H; simpl.
  - by apply quiet_rel_refl.
  - simpl in Hes. apply andb_prop in Hes as [He Hes].
    apply negb_true_iff in He.
    pose proof (quiet_dispatch url_parses e He w H) as Hstep.
    eapply quiet_rel_trans; [exact Hstep|].
    apply IH; [exact Hes|]. apply Hstep.
Qed.

Lemma scheduleReconnect_result (w : World) :
  scheduleReconnect w
  = (Normal tt,
     mkWorld (set_reconnectAttempts (S (reconnectAttempts (this w))) (this w))
       (heap w) (timers w ++ [backoff w])
       (console w ++ [LogScheduling (S (reconnectAttempts (this w))) (backoff w)])
       (app w)).
Proof.
  unfold scheduleReconnect, mbind, eff_bind, bind, on_this, gets, log,
    on_timers, modify, backoff.
  cbn [fst snd this heap timers console app reconnectAttempts reconnectDelay
       set_reconnectAttempts].
  rewrite Nat.sub_succ, Nat.sub_0_r. reflexivity.
Qed.

Lemma onclose_timers (code : Z) (reason : string) (w : World) :
  timers (snd (onclose code reason w))
  = if negb (isManuallyDisconnected (this w))
       && Nat.ltb (reconnectAttempts (this w)) (maxReconnectAttempts (this w))
    then timers w ++ [backoff w]
    else timers w.
Proof.
  unfold onclose, mbind, eff_bind, bind.
  unfold log at 1, on_this at 1, modify. cbn [fst snd].
  rewrite notifyHandlers_result. cbn.
  unfold reading. cbn.
  destruct (isManuallyDisconnected (this w)); cbn; [reflexivity|].
  match goal with
  | |- context [if ?c then scheduleReconnect else _] => destruct c
  end; cbn; [|reflexivity].
  rewrite scheduleReconnect_result. reflexivity.
Qed.

Lemma disconnect_sets_flag (w : World) :
  fst (disconnect w) = Normal tt
  /\ isManuallyDisconnected (this (snd (disconnect w))) = true
  /\ reconnectAttempts (this (snd (disconnect w))) = maxReconnectAttempts (this w)
  /\ ws (this (snd (disconnect w))) = None.
Proof.
  unfold disconnect, mbind, eff_bind, bind, reading, on_this, modify. cbn.
  destruct (ws (this w)) eqn:Hws; cbn; repeat split; try reflexivity.
  exact Hws.
Qed.

Lemma reconnect_callback_rechecks (url_parses : string -> bool) (w : World) :
  disconnected w -> reconnect_callback url_parses w = (Normal tt, w).
Proof.
  intros H. unfold reconnect_callback.
  destruct (currentUrl (this w)), (currentUserId (this w)); try reflexivity.
  rewrite H. reflexivity.
Qed.


(** Without [disconnect] the pending timer does reconnect: it opens a
    second socket. *)
Example pending_timer_reconnects :
  timers dropped_world = [1000%Z]
  /\ length (heap (run_events (fun _ => true) dropped_world [TimerFires 0])) = 2.
Proof. split; reflexivity. Qed.

(** C10. After [disconnect()] the service neither schedules nor attempts
    a reconnection, whatever happens next short of an explicit call of
    [connect]: sockets closing, failing, opening or delivering messages,
    pending timers expiring, views sending or registering handlers.
    [disconnect] completes normally, sets the manually-disconnected flag
    and puts [reconnectAttempts] at [maxReconnectAttempts], which the
    constructor sets to 5; from then on the flag stays set, the console
    shows no scheduling and no entry into [connect], no socket is created
    and no timer is added. The close handler adds a timer exactly when
    the flag is clear and [reconnectAttempts < maxReconnectAttempts], and
    the callback of a pending timer does nothing when it finds the flag
    set. *)
Theorem disconnect_stops_reconnection (url_parses : string -> bool)
  (w : World) (es : list Event) :
  no_connect_call es = true ->
  let w0 := snd (disconnect w) in
  let w' := run_events url_parses w0 es in
  (fst (disconnect w) = Normal tt
   /\ isManuallyDisconnected (this w0) = true
   /\ reconnectAttempts (this w0) = maxReconnectAttempts (this w)
   /\ maxReconnectAttempts constructor = 5)
  /\ (isManuallyDisconnected (this w') = true
      /\ maxReconnectAttempts (this w') = maxReconnectAttempts (this w0)
      /\ reconnect_log w' = reconnect_log w0
      /\ length (heap w') = length (heap w0)
      /\ length (timers w') <= length (timers w0))
  /\ (forall v code reason,
        timers (snd (onclose code reason v))
        = if negb (isManuallyDisconnected (this v))
             && Nat.ltb (reconnectAttempts (this v))
                  (maxReconnectAttempts (this v))
          then timers v ++ [backoff v]
          else timers v)
  /\ (forall v, disconnected v ->
        reconnect_callback url_parses v = (Normal tt, v)).
Proof.
  intros Hes w0 w'.
  destruct (disconnect_sets_flag w) as (Hn & Hflag & Hatt & _).
  split; [|split; [|split]].
  - repeat split; assumption || reflexivity.
  - destruct (quiet_run_events url_parses es w0 Hes Hflag) as [f m l h t].
    repeat split; assumption.
  - intros v code reason. apply onclose_timers.
  - intros v Hv. by apply reconnect_callback_rechecks.
Qed.

Lemma disconnect_stops_reconnection_witness :
  no_connect_call [TimerFires 0; SocketClose 0 1000 "Manual disconnect"] = true
  /\ length (heap (run_events (fun _ => true) (snd (disconnect dropped_world))
                     [TimerFires 0; SocketClose 0 1000 "Manual disconnect"]))
     = length (heap (snd (disconnect dropped_world))).
Proof.
  split; [reflexivity|].
  pose proof (disconnect_stops_reconnection (fun _ => true) dropped_world
                [TimerFires 0; SocketClose 0 1000 "Manual disconnect"]
                eq_refl) as H.
  cbv zeta in H. destruct H as (_ & (_ & _ & _ & Hheap & _) & _).
  exact Hheap.
Defined.

(* ===================================================================== *)
(** ** Properties of the client-side buffers *)
(* ===================================================================== *)

Import Dashboard IotStore Samples.
Lemma unshift_capped_cons (n : nat) (x : JsVal) (l : list JsVal) :
  unshift_capped (S n) x l = x :: take n l.
Proof.
  unfold unshift_capped. cbn [length].
  destruct (Nat.ltb (S n) (S (length l))) eqn:Hlt.
  - reflexivity.
  - apply Nat.ltb_ge in Hlt. rewrite take_ge; [reflexivity|lia].
Qed.

Lemma take_no_longer {A} (n : nat) (l : list A) : length (take n l) <= n.
Proof. rewrite length_take. lia. Qed.

(** A value whose conversion to text fails is an object or an array: it
    is truthy and strictly equal to nothing. *)
Lemma to_string_throws_object (v : JsVal) :
  to_string_throws v = true ->
  truthy v = true /\ forall x, strict_equal v x = false.
Proof.
  destruct v; cbn [to_string_throws]; try discriminate; intros _;
    (split; [reflexivity|intros x; reflexivity]).
Qed.

Lemma handleSystemAlert_outcome (c : Clock) (data : JsVal) (v : View) :
  if nullish data
  then handleSystemAlert c data v = (Throw (VStr "TypeError"), v)
  else
    systemAlerts (snd (handleSystemAlert c data v))
    = alert_entry c (get "level" data) (get "message" data)
        (get "details" data)
        :: take 19 (systemAlerts v)
    /\ latestSensorData (snd (handleSystemAlert c data v))
       = latestSensorData v
    /\ devices (snd (handleSystemAlert c data v)) = devices v
    /\ fst (handleSystemAlert c data v)
       = if (strict_equal (get "level" data) (VStr "error")
             || strict_equal (get "level" data) (VStr "critical"))
            && to_string_throws (get "message" data)
         then Throw (VStr "TypeError")
         else Normal tt.
Proof.
  unfold handleSystemAlert, mbind, eff_bind, bind, member.
  destruct data; cbn [nullish throw ret]; try reflexivity.
  all: unfold modify, template_with, showToast, modify;
    destruct (strict_equal _ _ || strict_equal _ _); cbn [andb];
    try destruct (to_string_throws _);
    cbn; rewrite unshift_capped_cons; repeat split; reflexivity.
Qed.

Lemma member_result (k : string) (v : JsVal) (s : View) :
  member k v s
  = if nullish v then (Throw (VStr "TypeError"), s) else (Normal (get k v), s).
Proof. by destruct v. Qed.

Lemma to_string_throws_or_else (v : JsVal) (s : string) :
  to_string_throws (or_else v (VStr s)) = to_string_throws v.
Proof.
  unfold or_else. destruct v; cbn [truthy to_string_throws]; try reflexivity;
    match goal with |- context [if ?b then _ else _] => by destruct b end.
Qed.

Lemma existsb_never {A} (f : A -> bool) (l : list A) :
  (forall x, f x = false) -> existsb f l = false.
Proof.
  intros H. induction l as [|x l IH]; [reflexivity|].
  cbn [existsb]. by rewrite H, IH.
Qed.

Lemma handleSensorData_outcome (c : Clock) (data : JsVal) (v : View) :
  if nullish data || nullish (get "data" data)
  then handleSensorData c data v = (Throw (VStr "TypeError"), v)
  else
    latestSensorData (snd (handleSensorData c data v))
    = sensor_entry c data (get "data" data) :: take 49 (latestSensorData v)
    /\ systemAlerts (snd (handleSensorData c data v)) = systemAlerts v
    /\ fst (handleSensorData c data v)
       = if to_string_throws (get "device_id" (get "data" data))
         then Throw (VStr "TypeError")
         else Normal tt.
Proof.
  unfold handleSensorData, mbind, eff_bind, bind.
  rewrite member_result. destruct (nullish data); [reflexivity|].
  rewrite member_result. cbn [orb].
  destruct (nullish (get "data" data)); [reflexivity|].
  unfold modify, reading, template_with. cbn [fst snd].
  change (get "device_id" (sensor_entry c data (get "data" data)))
    with (or_else (get "device_id" (get "data" data)) (VStr "unknown")).
  rewrite to_string_throws_or_else, unshift_capped_cons.
  destruct (to_string_throws (get "device_id" (get "data" data))) eqn:Hthrows.
  - apply to_string_throws_object in Hthrows as [Htruthy Hneq].
    unfold or_else. rewrite Htruthy, (Hneq (VStr "unknown")).
    rewrite (existsb_never _ _ Hneq).
    repeat split; reflexivity.
  - destruct (negb _ && negb _); repeat split; reflexivity.
Qed.

(** C9. Every insertion leaves the buffer bounded and newest first. The
    store's [addSystemAlert] and [addSensorReading] put the new entry at
    index 0, keep the previous entries behind it in their order and drop
    those beyond the bound from the tail: at most 20 alerts and at most 50
    readings remain, whatever the buffer held before. The dashboard's
    [handleSystemAlert] does the same with the alert it builds for every
    message other than [null] and [undefined], for which it throws before
    touching the view; [handleSensorData] does the same with the reading
    it builds whenever the message and its [data] are neither [null] nor
    [undefined], and throws before touching the view otherwise. After the
    insertion a handler completes normally unless a value it turns into
    text cannot be converted (the message of an [error] or [critical]
    alert, the id of a device); the exception then comes after the buffer
    was updated, and the buffer is bounded and newest first all the
    same. *)
Theorem buffers_bounded_newest_first (c : Clock) :
  (forall alert s,
     st_systemAlerts (addSystemAlert c alert s)
     = stored_alert c alert :: take 19 (st_systemAlerts s)
     /\ length (st_systemAlerts (addSystemAlert c alert s)) <= 20)
  /\ (forall reading s,
        st_latestSensorData (addSensorReading c reading s)
        = stored_reading c reading :: take 49 (st_latestSensorData s)
        /\ length (st_latestSensorData (addSensorReading c reading s)) <= 50)
  /\ (forall data v,
        if nullish data
        then handleSystemAlert c data v = (Throw (VStr "TypeError"), v)
        else
          systemAlerts (snd (handleSystemAlert c data v))
          = alert_entry c (get "level" data) (get "message" data)
              (get "details" data)
              :: take 19 (systemAlerts v)
          /\ length (systemAlerts (snd (handleSystemAlert c data v))) <= 20
          /\ latestSensorData (snd (handleSystemAlert c data v))
             = latestSensorData v
          /\ fst (handleSystemAlert c data v)
             = if (strict_equal (get "level" data) (VStr "error")
                   || strict_equal (get "level" data) (VStr "critical"))
                  && to_string_throws (get "message" data)
               then Throw (VStr "TypeError")
               else Normal tt)
  /\ (forall data v,
        if nullish data || nullish (get "data" data)
        then handleSensorData c data v = (Throw (VStr "TypeError"), v)
        else
          latestSensorData (snd (handleSensorData c data v))
          = sensor_entry c data (get "data" data)
              :: take 49 (latestSensorData v)
          /\ length (latestSensorData (snd (handleSensorData c data v))) <= 50
          /\ systemAlerts (snd (handleSensorData c data v)) = systemAlerts v
          /\ fst (handleSensorData c data v)
             = if to_string_throws (get "device_id" (get "data" data))
               then Throw (VStr "TypeError")
               else Normal tt).
Proof.
  split; [|split; [|split]].
  - intros alert s. unfold addSystemAlert. cbn [st_systemAlerts].
    rewrite unshift_capped_cons. split; [reflexivity|].
    cbn [length]. pose proof (take_no_longer 19 (st_systemAlerts s)). lia.
  - intros reading s. unfold addSensorReading. cbn [st_latestSensorData].
    rewrite unshift_capped_cons. split; [reflexivity|].
    cbn [length]. pose proof (take_no_longer 49 (st_latestSensorData s)). lia.
  - intros data v. pose proof (handleSystemAlert_outcome c data v) as H.
    destruct (nullish data); [exact H|].
    destruct H as (Ha & Hr & _ & Hc). rewrite Ha.
    split; [reflexivity|]. split; [|split; [exact Hr|exact Hc]].
    cbn [length]. pose proof (take_no_longer 19 (systemAlerts v)). lia.
  - intros data v. pose proof (handleSensorData_outcome c data v) as H.
    destruct (nullish data || nullish (get "data" data)); [exact H|].
    destruct H as (Hr & Ha & Hc). rewrite Hr.
    split; [reflexivity|]. split; [|split; [exact Ha|exact Hc]].
    cbn [length]. pose proof (take_no_longer 49 (latestSensorData v)). lia.
Qed.

Lemma buffers_bounded_newest_first_witness :
  (systemAlerts (snd (handleSystemAlert noon critical_alert full_view)) !! 0
   = Some (alert_entry noon (VStr "critical") (VStr "overheating") VUndefined)
   /\ length (systemAlerts
                (snd (handleSystemAlert noon critical_alert full_view)))
      = 20
   /\ fst (handleSystemAlert noon critical_alert full_view) = Normal tt)
  /\ (systemAlerts (snd (handleSystemAlert noon untextable_alert full_view))
      !! 0
      = Some (alert_entry noon (VStr "error")
                (VObj [("toString", VNum 1)]) VUndefined)
      /\ fst (handleSystemAlert noon untextable_alert full_view)
         = Throw (VStr "TypeError"))
  /\ handleSystemAlert noon VNull full_view
     = (Throw (VStr "TypeError"), full_view)
  /\ (latestSensorData
        (snd (handleSensorData noon temperature_reading full_view)) !! 0
      = Some (sensor_entry noon temperature_reading
                (get "data" temperature_reading))
      /\ length (latestSensorData
                   (snd (handleSensorData noon temperature_reading full_view)))
         = 50)
  /\ handleSensorData noon (VObj [("type", VStr "sensor_data")]) full_view
     = (Throw (VStr "TypeError"), full_view).
Proof.
  destruct (buffers_bounded_newest_first noon) as (_ & _ & Ha & Hr).
  split; [|split; [|split; [|split]]].
  - destruct (Ha critical_alert full_view) as (H1 & _ & _ & H4).
    rewrite H1. split; [reflexivity|split; [reflexivity|exact H4]].
  - destruct (Ha untextable_alert full_view) as (H1 & _ & _ & H4).
    rewrite H1. split; [reflexivity|exact H4].
  - exact (Ha VNull full_view).
  - destruct (Hr temperature_reading full_view) as (H1 & _ & _ & _).
    rewrite H1. split; reflexivity.
  - exact (Hr (VObj [("type", VStr "sensor_data")]) full_view).
Defined.

(** Which keys count as array indices. *)
Example array_index_samples :
  map array_index ["0"; "7"; "42"; "4294967294"]
  = [Some 0%N; Some 7%N; Some 42%N; Some 4294967294%N]
  /\ map array_index [""; "07"; "-1"; "1.5"; "id"; "4294967295"]
     = [None; None; None; None; None; None].
Proof. split; reflexivity. Qed.

(** The own properties of a stored alert come in the order JavaScript
    gives them: an array-index key of the alert goes in front of [id], a
    [timestamp] of the alert keeps its place and takes the new value. *)
Example stored_alert_key_order :
  stored_alert noon
    [("level", VStr "info"); ("timestamp", VStr "old"); ("7", VNull);
     ("id", VNum 1); ("2", VNull)]
  = VObj [("2", VNull); ("7", VNull); ("id", VNum 1);
          ("level", VStr "info");
          ("timestamp", VStr "2025-01-01T12:00:00.000Z")].
Proof. reflexivity. Qed.

(** A stored reading keeps its own truthy [timestamp]. *)
Example stored_reading_keeps_timestamp :
  stored_reading noon [("value", VNum 35); ("timestamp", VStr "earlier")]
  = VObj [("id", VNum (fresh_id noon)); ("value", VNum 35);
          ("timestamp", VStr "earlier")]
  /\ stored_reading noon [("value", VNum 35)]
     = VObj [("id", VNum (fresh_id noon)); ("value", VNum 35);
             ("timestamp", VStr "2025-01-01T12:00:00.000Z")].
Proof. split; reflexivity. Qed.

(* ===================================================================== *)
(** ** Properties of the protocol messages *)
(* ===================================================================== *)

Import Protocol.

Ltac in_list := apply (bool_decide_unpack _); vm_compute; exact I.

Lemma all_sent_types_known (site : SendSite) (m : JsVal) :
  m ∈ messages_of site ->
  exists t, type_of m = Some t /\ t ∈ sent_types.
Proof.
  destruct site; cbn [messages_of];
    unfold requestSystemStatus, requestUsersList, requestSystemInfo,
      reloadConfigurations;
    try destruct (negb (isConnected v));
    intros Hm;
    repeat (apply elem_of_cons in Hm as [->|Hm]);
    try (by apply elem_of_nil in Hm);
    (eexists; split; [reflexivity|in_list]).
Qed.

Lemma consumes_iff (t : string) : consumes t = true <-> t ∈ consumed_types.
Proof.
  split.
  - unfold consumes. intros H.
    apply orb_prop in H as [H|H]; [apply orb_prop in H as [H|H]|];
      apply bool_decide_eq_true in H;
      repeat (apply elem_of_cons in H as [->|H]);
      try (by apply elem_of_nil in H); in_list.
  - intros H. unfold consumed_types, spec_server_types in H. cbn [app] in H.
    repeat (apply elem_of_cons in H as [->|H]);
      try (by apply elem_of_nil in H); reflexivity.
Qed.

Lemma handleMessage_console (t : string) (message : JsVal) (w : World) :
  get "type" message = VStr t ->
  exists errs,
    console (snd (handleMessage message w))
    = console w ++ map (ErrHandler t) errs
      ++ [if bool_decide (t ∈ switch_cases) then LogCase t message
          else LogUnhandled (VStr t) message].
Proof.
  intros Ht. unfold handleMessage.
  destruct message; try discriminate; rewrite Ht.
  all: unfold mbind, eff_bind, bind.
  all: destruct (truthy (VStr t)).
  all: try rewrite notifyHandlers_result.
  all: cbn [fst snd ret].
  all: destruct (bool_decide (t ∈ switch_cases)); cbn.
  all: try (eexists; rewrite <- app_assoc; reflexivity).
  all: exists []; reflexivity.
Qed.

Lemma every_sent_type_occurs (t : string) :
  t ∈ sent_types ->
  exists site m, m ∈ messages_of site /\ type_of m = Some t.
Proof.
  intros H. unfold sent_types, spec_client_types in H. cbn [app] in H.
  pose (v := Dashboard.mkView true [] [] [] []).
  repeat (apply elem_of_cons in H as [->|H]);
    [ exists (SubscribeMQTT VUndefined VUndefined), (subscribe_message VUndefined VUndefined)
    | exists (UnsubscribeMQTT VUndefined), (unsubscribe_message VUndefined)
    | exists (PublishMQTT VUndefined VUndefined VUndefined VUndefined),
        (publish_message VUndefined VUndefined VUndefined VUndefined)
    | exists GetMQTTStatus, get_status_message
    | exists (Ping ""), (ping_message "")
    | exists GetAllUsers, get_all_users_message
    | exists (RequestSystemInfo v), get_system_info_message
    | exists (ReloadConfigurations v), reload_acl_message
    | exists (ReloadConfigurations v), reload_ss_message
    | by apply elem_of_nil in H ];
    (split; [cbn; repeat constructor|reflexivity]).
Qed.

(** C6, as the interface description states it, fails on the sources:
    on an open connection [getAllUsers] transmits an envelope of type
    [get_all_users], which is not one of the five listed client types,
    and [device_status] has a case in [handleMessage] and a handler in
    the dashboard although it is not one of the eight listed server
    types. *)
Lemma listed_types_not_exhaustive :
  (transmitted (snd (getAllUsers connected_world))
   = [FJson get_all_users_message]
   /\ type_of get_all_users_message = Some "get_all_users"
   /\ "get_all_users" ∉ spec_client_types)
  /\ (consumes "device_status" = true
      /\ "device_status" ∉ spec_server_types).
Proof.
  split; split.
  - reflexivity.
  - split; [reflexivity|]. apply (bool_decide_unpack _). vm_compute. exact I.
  - reflexivity.
  - apply (bool_decide_unpack _). vm_compute. exact I.
Qed.

(** C6, amended. Every envelope the client passes to [send] carries a
    string [type] drawn from exactly the nine types [subscribe],
    [unsubscribe], [publish], [get_status], [ping], [get_all_users],
    [get_system_info], [reload_acl], [reload_ss], each of which some call
    sends; the five listed types are among them. The types the client
    consumes, by a case of [handleMessage] or a handler registered by a
    view, are exactly the eight listed server types together with
    [connection_status], [device_status], [mqtt_publish], [users_list],
    [status], [system_info]. [handleMessage] reports a message as handled
    when its type has a case in the [switch] and as unhandled otherwise,
    after the handlers have run. *)
Theorem relay_message_types :
  (forall site m,
     m ∈ messages_of site ->
     exists t, type_of m = Some t /\ t ∈ sent_types)
  /\ (forall t,
        t ∈ sent_types ->
        exists site m, m ∈ messages_of site /\ type_of m = Some t)
  /\ (forall t, t ∈ spec_client_types -> t ∈ sent_types)
  /\ (forall t, consumes t = true <-> t ∈ consumed_types)
  /\ (forall t, t ∈ spec_server_types -> t ∈ consumed_types)
  /\ (forall t message w,
        get "type" message = VStr t ->
        exists errs,
          console (snd (handleMessage message w))
          = console w ++ map (ErrHandler t) errs
            ++ [if bool_decide (t ∈ switch_cases) then LogCase t message
                else LogUnhandled (VStr t) message]).
Proof.
  split; [|split; [|split; [|split; [|split]]]].
  - apply all_sent_types_known.
  - apply every_sent_type_occurs.
  - intros t H. unfold sent_types. apply elem_of_app. by left.
  - apply consumes_iff.
  - intros t H. unfold consumed_types. apply elem_of_app. by left.
  - apply handleMessage_console.
Qed.

Lemma relay_message_types_witness :
  exists t, type_of get_all_users_message = Some t /\ t ∈ sent_types.
Proof.
  destruct relay_message_types as (Hsent & _).
  apply (Hsent GetAllUsers get_all_users_message).
  cbn. constructor.
Defined.

(* ===================================================================== *)
(** ** Properties of the sensor view *)
(* ===================================================================== *)

Import SSManagement.

Section AnyServer.

Context {Server : Type} (api : Api Server).

Lemma createSensor_rejects (p : Page) :
  1 < addSelectedLimitsCount (view p) ->
  createSensor api p
  = (Normal tt,
     mkPage (set_addError "You cannot select more than 1 limit." (view p))
       (server p)).
Proof.
  intros H. apply Nat.ltb_lt in H.
  unfold createSensor, try_catch, reading. rewrite H. reflexivity.
Qed.

Lemma updateSensor_rejects (p : Page) :
  1 < editSelectedLimitsCount (view p) ->
  updateSensor_view api p
  = (Normal tt,
     mkPage (set_updateError "You cannot select more than 1 limit." (view p))
       (server p)).
Proof.
  intros H. apply Nat.ltb_lt in H.
  unfold updateSensor_view, try_catch, reading. rewrite H. reflexivity.
Qed.

Lemma createSensor_writes (p : Page) :
  addSelectedLimitsCount (view p) <= 1 ->
  server (snd (createSensor api p))
  = snd (addSensor api (create_payload (newSensor (view p))) (server p)).
Proof.
  intros H. apply Nat.ltb_ge in H.
  unfold createSensor, try_catch, reading. rewrite H.
  unfold loadSensors, loadSSInfo, showToast, on_view, request, fetch,
    try_catch, modify, mbind, eff_bind, bind.
  cbn [fst snd view server].
  destruct (addSensor api _ (server p)) as [[u|e] sv]; cbn [fst snd view server];
    [|reflexivity].
  destruct (getAllSensors api false sv); cbn [fst snd view server];
    destruct (getSSInfo api sv); reflexivity.
Qed.

Lemma updateSensor_writes (p : Page) (e : EditingSensor) :
  editSelectedLimitsCount (view p) <= 1 ->
  editingSensor (view p) = Some e ->
  server (snd (updateSensor_view api p))
  = snd (updateSensor api (e_sensor_id e) (update_payload e) (server p)).
Proof.
  intros H He. apply Nat.ltb_ge in H.
  unfold updateSensor_view, try_catch, reading. rewrite H, He.
  unfold loadSensors, showToast, on_view, request, fetch,
    try_catch, modify, mbind, eff_bind, bind.
  cbn [fst snd view server].
  destruct (updateSensor api _ _ (server p)) as [[u|x] sv];
    cbn [fst snd view server]; [|reflexivity].
  destruct (getAllSensors api false sv); reflexivity.
Qed.

Lemma updateSensor_nothing_to_edit (p : Page) :
  editingSensor (view p) = None ->
  server (snd (updateSensor_view api p)) = server p.
Proof.
  intros He.
  unfold updateSensor_view, try_catch, reading, editSelectedLimitsCount.
  rewrite He. reflexivity.
Qed.

End AnyServer.

Lemma selected_count_payload (limits : list LimitForm) :
  length (List.filter l_is_selected (map limit_payload limits))
  = selected_count limits.
Proof.
  unfold selected_count. induction limits as [|l ls IH]; [reflexivity|].
  cbn. destruct (is_selected l); cbn; by rewrite IH.
Qed.

(** C1, as stated, fails on the sources: the write-time check of
    [createSensor] lets a sensor through whose limits select no Limit
    Config, so the sensor that is written does not have exactly one. *)
Lemma sensor_without_selected_limit_is_written :
  server (snd (createSensor wire_api (mkPage (fresh_view none_selected) [])))
  = [PostSensor (create_payload none_selected)]
  /\ length (List.filter l_is_selected (p_limits (create_payload none_selected)))
     <> 1.
Proof. split; [reflexivity|]. cbn. discriminate. Qed.

(** C1, amended. A sensor written through the view has at most one
    selected Limit Config. A create or an update whose limits select more
    than one is rejected before any request is made: the function returns
    with the error message set and the server, whatever it is, is left as
    it was. A create or an update that selects at most one is sent, and
    the limits it carries select at most one. *)
Theorem at_most_one_selected_limit_is_written {Server : Type}
  (api : Api Server) (p : Page) :
  (1 < addSelectedLimitsCount (view p) ->
   createSensor api p
   = (Normal tt,
      mkPage (set_addError "You cannot select more than 1 limit." (view p))
        (server p)))
  /\ (1 < editSelectedLimitsCount (view p) ->
      updateSensor_view api p
      = (Normal tt,
         mkPage (set_updateError "You cannot select more than 1 limit." (view p))
           (server p)))
  /\ (addSelectedLimitsCount (view p) <= 1 ->
      server (snd (createSensor api p))
      = snd (addSensor api (create_payload (newSensor (view p))) (server p))
      /\ length (List.filter l_is_selected
                   (p_limits (create_payload (newSensor (view p))))) <= 1)
  /\ (forall e,
        editSelectedLimitsCount (view p) <= 1 ->
        editingSensor (view p) = Some e ->
        server (snd (updateSensor_view api p))
        = snd (updateSensor api (e_sensor_id e) (update_payload e) (server p))
        /\ selected_count (u_limits (update_payload e)) <= 1)
  /\ (editingSensor (view p) = None ->
      server (snd (updateSensor_view api p)) = server p).
Proof.
  split; [|split; [|split; [|split]]].
  - apply createSensor_rejects.
  - apply updateSensor_rejects.
  - intros H. split; [by apply createSensor_writes|].
    cbn [create_payload p_limits]. by rewrite selected_count_payload.
  - intros e H He. split; [by apply updateSensor_writes|].
    unfold editSelectedLimitsCount in H. by rewrite He in H.
  - apply updateSensor_nothing_to_edit.
Qed.

Lemma at_most_one_selected_limit_is_written_witness :
  server (snd (createSensor wire_api (mkPage (fresh_view two_selected) [])))
  = [].
Proof.
  destruct (at_most_one_selected_limit_is_written wire_api
              (mkPage (fresh_view two_selected) [])) as (Hreject & _).
  rewrite Hreject; [reflexivity|]. cbn. lia.
Defined.

(* ===================================================================== *)
(** ** Properties of the alert lifecycle *)
(* ===================================================================== *)

Import Backend.

Lemma find_alert_id (i : nat) (l : list Alert) (a : Alert) :
  find_alert i l = Some a -> id a = i.
Proof.
  unfold find_alert. intros H. apply List.find_some in H as [_ H].
  by apply Nat.eqb_eq in H.
Qed.

Lemma find_alert_replace (i : nat) (l : list Alert) (a a' : Alert) :
  find_alert i l = Some a -> id a' = i ->
  find_alert i (replace_alert a' l) = Some a'.
Proof.
  unfold find_alert, replace_alert. intros H Hid. subst i.
  induction l as [|x l IH]; [discriminate|].
  cbn in *.
  destruct (Nat.eqb (id x) (id a')) eqn:Hx.
  - by rewrite Nat.eqb_refl.
  - rewrite Hx. by apply IH.
Qed.

Section AnyAlertServer.

Context {Server : Type} (api : Api Server).

Lemma resolveAlert_guard (alert : Alert) (p : Page) :
  is_resolved alert = true -> resolveAlert_view api alert p = (Normal tt, p).
Proof. intros H. unfold resolveAlert_view, try_catch. by rewrite H. Qed.

Lemma revertAlert_guard (alert : Alert) (p : Page) :
  is_resolved alert = false -> revertAlert_view api alert p = (Normal tt, p).
Proof. intros H. unfold revertAlert_view, try_catch. by rewrite H. Qed.

Lemma resolveAlert_requests (alert : Alert) (p : Page) :
  is_resolved alert = false ->
  server (snd (resolveAlert_view api alert p))
  = snd (resolveAlert api (id alert) (server p)).
Proof.
  intros H. unfold resolveAlert_view. rewrite H.
  unfold loadSensors, loadAlerts, showToast, on_view, request, fetch,
    try_catch, modify, mbind, eff_bind, bind.
  cbn [fst snd view server].
  destruct (resolveAlert api _ (server p)) as [[u|e] sv];
    cbn [fst snd view server]; [|reflexivity].
  destruct (getAllSensors api false sv); cbn [fst snd view server];
    destruct (getAlerts api sv); reflexivity.
Qed.

Lemma revertAlert_requests (alert : Alert) (p : Page) :
  is_resolved alert = true ->
  server (snd (revertAlert_view api alert p))
  = snd (revertAlert api (id alert) (server p)).
Proof.
  intros H. unfold revertAlert_view. rewrite H.
  unfold loadSensors, loadAlerts, showToast, on_view, request, fetch,
    try_catch, modify, mbind, eff_bind, bind.
  cbn [fst snd view server negb].
  destruct (revertAlert api _ (server p)) as [[u|e] sv];
    cbn [fst snd view server]; [|reflexivity].
  destruct (getAllSensors api false sv); cbn [fst snd view server];
    destruct (getAlerts api sv); reflexivity.
Qed.

End AnyAlertServer.

(** C2. Resolving an alert that is already resolved, and reverting one
    that is unresolved, is rejected as a no-op. In the view,
    [resolveAlert] and [revertAlert] return at their guard: no request is
    made and nothing of the page or the server changes. In the Alert
    Lifecycle Manager the call is rejected with the current state of the
    alert and the store is unchanged. On the valid transitions [resolve]
    sets [resolved_at] to the current time and [revert] clears it; the
    other fields of the alert are kept, the store holds the new state and
    the transition is recorded, and the view sends the request. *)
Theorem resolve_revert_rejected_when_not_applicable
  (now : string) (i : nat) (s : AlertStore) (a : Alert) :
  find_alert i (stored_alerts s) = Some a ->
  (is_resolved a = true -> resolve now i s = (Rejected a, s))
  /\ (is_resolved a = false -> revert now i s = (Rejected a, s))
  /\ (is_resolved a = false ->
      let a' := set_resolution true (Some now) a in
      fst (resolve now i s) = Done a'
      /\ resolved_at a' = Some now
      /\ find_alert i (stored_alerts (snd (resolve now i s))) = Some a'
      /\ audit_trail (snd (resolve now i s))
         = audit_trail s ++ [(i, Resolved, now)])
  /\ (is_resolved a = true ->
      let a' := set_resolution false None a in
      fst (revert now i s) = Done a'
      /\ resolved_at a' = None
      /\ find_alert i (stored_alerts (snd (revert now i s))) = Some a'
      /\ audit_trail (snd (revert now i s))
         = audit_trail s ++ [(i, Reverted, now)])
  /\ (forall Server (api : Api Server) (p : Page),
        (is_resolved a = true -> resolveAlert_view api a p = (Normal tt, p))
        /\ (is_resolved a = false -> revertAlert_view api a p = (Normal tt, p))
        /\ (is_resolved a = false ->
            server (snd (resolveAlert_view api a p))
            = snd (resolveAlert api (id a) (server p)))
        /\ (is_resolved a = true ->
            server (snd (revertAlert_view api a p))
            = snd (revertAlert api (id a) (server p)))).
Proof.
  intros Hfind. pose proof (find_alert_id _ _ _ Hfind) as Hid.
  split; [|split; [|split; [|split]]].
  - intros H. unfold resolve. by rewrite Hfind, H.
  - intros H. unfold revert. by rewrite Hfind, H.
  - intros H a'. unfold resolve. rewrite Hfind, H. cbn [fst snd].
    repeat split; try reflexivity.
    cbn [stored_alerts]. by apply find_alert_replace with a.
  - intros H a'. unfold revert. rewrite Hfind, H. cbn [fst snd].
    repeat split; try reflexivity.
    cbn [stored_alerts]. by apply find_alert_replace with a.
  - intros Server api p. split; [|split; [|split]].
    + apply resolveAlert_guard.
    + apply revertAlert_guard.
    + apply resolveAlert_requests.
    + apply revertAlert_requests.
Qed.

Lemma resolve_revert_rejected_when_not_applicable_witness :
  resolve "2025-01-01T13:00:00.000Z" 7 (mkAlertStore [closed_alert] [])
  = (Rejected closed_alert, mkAlertStore [closed_alert] [])
  /\ resolved_at
       (set_resolution true (Some "2025-01-01T13:00:00.000Z") open_alert)
     = Some "2025-01-01T13:00:00.000Z".
Proof.
  split.
  - apply (resolve_revert_rejected_when_not_applicable
             "2025-01-01T13:00:00.000Z" 7 (mkAlertStore [closed_alert] [])
             closed_alert eq_refl).
    reflexivity.
  - apply (resolve_revert_rejected_when_not_applicable
             "2025-01-01T13:00:00.000Z" 7 (mkAlertStore [open_alert] [])
             open_alert eq_refl).
    reflexivity.
Defined.

(* ===================================================================== *)
(** ** Properties of the Sensor Limit Evaluator *)
(* ===================================================================== *)







(* ===================================================================== *)
(** ** Properties of the ACL Evaluator *)
(* ===================================================================== *)

Import Acl.

Lemma more_specific_spec (a b : Rule) :
  more_specific a b = true
  <-> wildcard_count (pattern a) < wildcard_count (pattern b)
      \/ (wildcard_count (pattern a) = wildcard_count (pattern b)
          /\ literal_prefix (pattern b) < literal_prefix (pattern a)).
Proof.
  unfold more_specific.
  rewrite orb_true_iff, andb_true_iff, !Nat.ltb_lt, Nat.eqb_eq. tauto.
Qed.

Lemma same_specificity_spec (a b : Rule) :
  same_specificity a b = true
  <-> wildcard_count (pattern a) = wildcard_count (pattern b)
      /\ literal_prefix (pattern a) = literal_prefix (pattern b).
Proof.
  unfold same_specificity. rewrite andb_true_iff, !Nat.eqb_eq. tauto.
Qed.

Lemma yields_to_refl action r : yields_to action r r.
Proof.
  split; [|auto].
  apply not_true_iff_false. rewrite more_specific_spec. lia.
Qed.

Lemma yields_to_trans action o m r :
  yields_to action o m -> yields_to action m r -> yields_to action o r.
Proof.
  intros [H1 D1] [H2 D2].
  apply not_true_iff_false in H1, H2.
  rewrite more_specific_spec in H1, H2.
  rewrite same_specificity_spec in D1, D2.
  split.
  - apply not_true_iff_false. rewrite more_specific_spec. lia.
  - rewrite same_specificity_spec. intros [E1 E2] Hd.
    apply D2; [lia|]. apply D1; [lia|]. exact Hd.
Qed.

Lemma pick_keeps action b c m :
  pick action (Some b) c = Some m ->
  (m = b \/ m = c) /\ yields_to action b m /\ yields_to action c m.
Proof.
  unfold pick. destruct (beats action c b) eqn:Hb; intros [= <-].
  - split; [by right|]. split; [|apply yields_to_refl].
    unfold beats in Hb. apply orb_true_iff in Hb as [Hb|Hb].
    + apply more_specific_spec in Hb. split.
      * apply not_true_iff_false. rewrite more_specific_spec. lia.
      * rewrite same_specificity_spec. lia.
    + apply andb_true_iff in Hb as [Hb _].
      apply andb_true_iff in Hb as [Hs Hd].
      apply same_specificity_spec in Hs. split; [|auto].
      apply not_true_iff_false. rewrite more_specific_spec. lia.
  - split; [by left|]. split; [apply yields_to_refl|].
    unfold beats in Hb. apply orb_false_iff in Hb as [Hm Hb].
    split; [exact Hm|]. intros Hs Hd. rewrite Hs, Hd in Hb. cbn in Hb.
    by apply negb_false_iff in Hb.
Qed.

Lemma effective_rule_fold action (l : list Rule) (best : option Rule) (r : Rule) :
  fold_left (pick action) l best = Some r ->
  (best = Some r \/ In r l)
  /\ (forall x, best = Some x \/ In x l -> yields_to action x r).
Proof.
  revert best. induction l as [|c l IH]; intros best H; cbn in H.
  - split; [by left|]. intros x [Hx|[]]. rewrite Hx in H.
    injection H as <-. apply yields_to_refl.
  - destruct (IH _ H) as [Hin Hall]. destruct best as [b|].
    + destruct (pick action (Some b) c) as [m|] eqn:Hm;
        [|unfold pick in Hm; destruct (beats action c b); discriminate].
      destruct (pick_keeps _ _ _ _ Hm) as (Hbc & Yb & Yc).
      assert (yields_to action m r) as Ym by (apply Hall; by left).
      split.
      * destruct Hin as [[= <-]|Hin]; [|right; by right].
        destruct Hbc as [->| ->]; [by left|right; by left].
      * intros x [[= <-]|[<-|Hx]].
        -- by apply yields_to_trans with m.
        -- by apply yields_to_trans with m.
        -- apply Hall. by right.
    + cbn in Hin, Hall. split.
      * destruct Hin as [[= <-]|Hin]; right; [by left|by right].
      * intros x [Hx|[<-|Hx]]; [discriminate| |].
        -- apply Hall. by left.
        -- apply Hall. by right.
Qed.

Lemma effective_rule_none action (l : list Rule) :
  effective_rule action l = None <-> l = [].
Proof.
  unfold effective_rule. split; [|by intros ->].
  destruct l as [|c l]; [done|]. cbn. intros H. exfalso.
  revert H. generalize c. induction l as [|d l IH]; intros b; cbn; [done|].
  destruct (beats action d b); apply IH.
Qed.

(** C4. Among the rules that match a query the effective rule is a most
    specific one: no matching rule has fewer wildcard tokens, and none
    with as few has a longer literal prefix. On a tie in specificity a
    deny on the action beats an allow: if any matching rule as specific
    as the effective one denies the action, the effective rule denies it
    and the decision is [Denied explicit_deny]. There is an effective
    rule exactly when some rule matches. In particular the explicit deny
    on [sf/sensors/device1/temperature] wins over the allow on
    [sf/sensors/+/temperature] for the same action, in either order of
    the rules, and a deny beats an allow on the same pattern. *)
Theorem effective_rule_most_specific_deny_on_tie (s : Snapshot)
  (u topic : string) (action : Action) :
  let matching := matching_rules s u topic in
  (effective_rule action matching = None <-> matching = [])
  /\ (forall r,
        effective_rule action matching = Some r ->
        In r matching
        /\ matches (pattern r) topic = true
        /\ (forall x,
              In x matching ->
              wildcard_count (pattern r) <= wildcard_count (pattern x)
              /\ (wildcard_count (pattern x) = wildcard_count (pattern r) ->
                  literal_prefix (pattern x) <= literal_prefix (pattern r)))
        /\ (forall x,
              In x matching ->
              same_specificity x r = true ->
              denies action x = true ->
              denies action r = true
              /\ decide_access s u topic action = Denied explicit_deny))
  /\ (decide_access operator_first "alice" "sf/sensors/device1/temperature"
        publish = Denied explicit_deny
      /\ decide_access operator_last "alice" "sf/sensors/device1/temperature"
           publish = Denied explicit_deny
      /\ effective_rule publish [allow_device1; deny_device1]
         = Some deny_device1
      /\ effective_rule publish [deny_device1; allow_device1]
         = Some deny_device1).
Proof.
  intros matching. split; [apply effective_rule_none|]. split.
  - intros r Hr.
    destruct (effective_rule_fold action matching None r Hr) as [Hin Hall].
    destruct Hin as [Hin|Hin]; [discriminate|].
    split; [exact Hin|]. split.
    { unfold matching, matching_rules in Hin.
      by apply List.filter_In in Hin as [_ Hin]. }
    split.
    + intros x Hx. destruct (Hall x (or_intror Hx)) as [Hm _].
      apply not_true_iff_false in Hm. rewrite more_specific_spec in Hm. lia.
    + intros x Hx Hs Hd. destruct (Hall x (or_intror Hx)) as [_ Hden].
      specialize (Hden Hs Hd). split; [exact Hden|].
      unfold decide_access. fold matching. by rewrite Hr, Hden.
  - repeat split; reflexivity.
Qed.

Lemma effective_rule_most_specific_deny_on_tie_witness :
  wildcard_count (pattern deny_device1)
  <= wildcard_count (pattern allow_any_device)
  /\ denies publish deny_device1 = true.
Proof.
  destruct (effective_rule_most_specific_deny_on_tie operator_first "alice"
              "sf/sensors/device1/temperature" publish) as (_ & H & _).
  destruct (H deny_device1 eq_refl) as (_ & _ & Hspec & Htie).
  split.
  - apply (Hspec allow_any_device). cbn. by left.
  - apply (Htie deny_device1); [cbn; by right; left|reflexivity|reflexivity].
Defined.

(** The viewer scenario: bob may subscribe under [sf/sensors/#] and has
    no publish allow; with the default policy deny, publishing is denied
    for want of a matching rule. *)
Example viewer_cannot_publish :
  decide_access bob_snapshot "bob" "sf/sensors/x/temperature" publish
  = Denied no_matching_rule
  /\ decide_access bob_snapshot "bob" "sf/sensors/x/temperature" subscribe
     = Allowed.
Proof. split; reflexivity. Qed.
